(** * frida-ps: process and application listing (frida_tools/ps.py)

    A shallow embedding of [frida_tools/ps.py]: the record comparators, the
    icon-width pre-scan, the text and JSON listings and the terminal
    negotiation, with the Python primitives they rely on written out.

    Conventions.
    - A Python [str] is a [string]; comparison is character by character on
      the character codes, as in Python.
    - A Python [int] is a [Z].
    - A Python [float] is an IEEE-754 binary64 value, [spec_float] with
      precision 53 and maximal exponent 1024.
    - A [dict] with string keys is a [gmap string _].
    - A call that may raise returns an [outcome]. *)

From Stdlib Require Import ZArith List Bool Ascii String Lia.
From Stdlib Require Import DecimalString SpecFloat Permutation Sorted QArith Qround.
From stdpp Require Import base option gmap strings.

Import ListNotations.
Local Open Scope Z_scope.
Local Open Scope string_scope.

(** ** Exceptions and outcomes *)

Inductive exn : Type :=
  | ValueError
  | IndexError
  | ZeroDivisionError
  | OverflowError
  | AssertionError
  | OSError
  | BackendError (msg : string).

(** [Blocked]: the call never returns, because a read waits for input that
    never arrives. *)
Inductive outcome (A : Type) : Type :=
  | Returned (a : A)
  | Raised (e : exn)
  | Blocked.

Arguments Returned {A} a.
Arguments Raised {A} e.
Arguments Blocked {A}.

(** ** Python primitives *)

Module Py.

(** [str(n)] for an [int]. *)
Definition str_of_int (n : Z) : string :=
  NilZero.string_of_int (Z.to_int n).

(** [len(s)] as an [int]. *)
Definition len (s : string) : Z := Z.of_nat (String.length s).

(** [n * c] for a one character string [c]. *)
Fixpoint repeat_char (c : ascii) (n : nat) : string :=
  match n with
  | O => EmptyString
  | S n' => String c (repeat_char c n')
  end.

Definition mul_str (n : Z) (c : ascii) : string := repeat_char c (Z.to_nat n).

(** ["%<w>s" % s]: right-justified in a field of [w], never truncated. *)
Definition rjust (w : Z) (s : string) : string :=
  mul_str (w - len s) " " ++ s.

(** ["%-<w>s" % s]: left-justified in a field of [w], never truncated. *)
Definition ljust (w : Z) (s : string) : string :=
  s ++ mul_str (w - len s) " ".

(** [a < b] and [a > b] on [str]. *)
Definition str_lt (a b : string) : bool :=
  match String.compare a b with Lt => true | _ => false end.

Definition str_gt (a b : string) : bool :=
  match String.compare a b with Gt => true | _ => false end.

(** [s.startswith(p)]. *)
Definition startswith (s p : string) : bool := String.prefix p s.

(** [s.split(sep)] for a one character separator: all the fields. *)
Fixpoint split_all (sep : ascii) (s : string) (field : string) : list string :=
  match s with
  | EmptyString => [field]
  | String c s' =>
      if Ascii.eqb c sep then field :: split_all sep s' EmptyString
      else split_all sep s' (field ++ String c EmptyString)
  end.

(** [s.split(sep, maxsplit)] for a one character separator: at most
    [maxsplit] cuts, the remainder is the last field. *)
Fixpoint split_max (sep : ascii) (maxsplit : nat) (s : string) (field : string)
  : list string :=
  match maxsplit with
  | O => [field ++ s]
  | S k =>
      match s with
      | EmptyString => [field]
      | String c s' =>
          if Ascii.eqb c sep then field :: split_max sep k s' EmptyString
          else split_max sep maxsplit s' (field ++ String c EmptyString)
      end
  end.

Definition split (s : string) (sep : ascii) : list string :=
  split_all sep s EmptyString.

Definition splitn (s : string) (sep : ascii) (maxsplit : nat) : list string :=
  split_max sep maxsplit s EmptyString.

(** [l[i]] on a list. *)
Definition index {A} (l : list A) (i : nat) : outcome A :=
  match nth_error l i with
  | Some x => Returned x
  | None => Raised IndexError
  end.

(** *** [int(s)] on a [str], base 10

    Leading and trailing white space is skipped, one sign is allowed, the
    digits may be separated by single underscores, and more than
    [max_str_digits] digits are refused. *)

Definition is_space (c : ascii) : bool :=
  let n := N_of_ascii c in
  ((9 <=? n) && (n <=? 13) || (n =? 32) || (n =? 133) || (n =? 160))%N.

Definition digit_value (c : ascii) : option Z :=
  let n := N_of_ascii c in
  if ((48 <=? n) && (n <=? 57))%N then Some (Z.of_N n - 48) else None.

Fixpoint lstrip (s : string) : string :=
  match s with
  | String c s' => if is_space c then lstrip s' else s
  | EmptyString => s
  end.

Fixpoint all_space (s : string) : bool :=
  match s with
  | String c s' => is_space c && all_space s'
  | EmptyString => true
  end.

Definition max_str_digits : nat := 4300.

(** [digits acc count prev s]: [acc] is the value read so far, [count] the
    number of digits, [prev] tells whether the previous character was an
    underscore. *)
Fixpoint digits (acc : Z) (count : nat) (prev_underscore : bool) (s : string)
  : option Z :=
  match s with
  | EmptyString =>
      if prev_underscore then None
      else if (max_str_digits <? count)%nat then None
      else Some acc
  | String c s' =>
      match digit_value c with
      | Some d => digits (10 * acc + d) (S count) false s'
      | None =>
          if Ascii.eqb c "_" then
            if prev_underscore then None else digits acc count true s'
          else if prev_underscore then None
          else if all_space s then
            if (max_str_digits <? count)%nat then None else Some acc
          else None
      end
  end.

Definition unsigned_int (s : string) : option Z :=
  match s with
  | String c _ =>
      match digit_value c with
      | Some _ => digits 0 0 false s
      | None => None
      end
  | EmptyString => None
  end.

Definition parse_int (s : string) : option Z :=
  match lstrip s with
  | String "+" s' => unsigned_int s'
  | String "-" s' => Z.opp <$> unsigned_int s'
  | s' => unsigned_int s'
  end.

Definition int (s : string) : outcome Z :=
  match parse_int s with
  | Some n => Returned n
  | None => Raised ValueError
  end.

End Py.

(** ** Data model *)

(** An icon descriptor: [icon["format"]] and [icon["image"]]. *)
Record IconDescriptor : Type := {
  format : string;
  image : list Byte.byte;
}.

(** The only entry of [parameters] the program reads is ["icons"], a
    sequence of icon descriptors; the values of the mapping are modelled at
    that type. *)
Record Process : Type := {
  pid : Z;
  name : string;
  parameters : gmap string (list IconDescriptor);
}.

Record Application : Type := {
  app_identifier : string;
  app_name : string;
  app_pid : Z;
  app_parameters : gmap string (list IconDescriptor);
}.

(** What [compute_icon_width] and the row renderer need of a record; both
    record types provide it. *)
Class Item (A : Type) : Type := {
  item_name : A -> string;
  item_parameters : A -> gmap string (list IconDescriptor);
}.

#[export] Instance Process_Item : Item Process :=
  {| item_name := name; item_parameters := parameters |}.

#[export] Instance Application_Item : Item Application :=
  {| item_name := app_name; item_parameters := app_parameters |}.

(** ** Comparators *)

(** ["icons" in d]. *)
Definition has_key (k : string) (d : gmap string (list IconDescriptor)) : bool :=
  bool_decide (is_Some (d !! k)).

Definition compare_applications (a b : Application) : Z :=
  let a_is_running := negb (app_pid a =? 0)%Z in
  let b_is_running := negb (app_pid b =? 0)%Z in
  if Bool.eqb a_is_running b_is_running then
    if Py.str_gt (app_name a) (app_name b) then 1
    else if Py.str_lt (app_name a) (app_name b) then -1
    else 0
  else if a_is_running then -1
  else 1.

Definition compare_processes (a b : Process) : Z :=
  let a_has_icon := has_key "icons" (parameters a) in
  let b_has_icon := has_key "icons" (parameters b) in
  if Bool.eqb a_has_icon b_has_icon then
    if Py.str_gt (name a) (name b) then 1
    else if Py.str_lt (name a) (name b) then -1
    else 0
  else if a_has_icon then -1
  else 1.

(** The loop of [compute_icon_width] over the icons of one record. *)
Fixpoint first_png (icons : list IconDescriptor) : Z :=
  match icons with
  | [] => 0
  | icon :: rest => if String.eqb (format icon) "png" then 4 else first_png rest
  end.

Definition compute_icon_width `{Item A} (item : A) : Z :=
  first_png (default [] (item_parameters item !! "icons")).

(** [sorted(l, key=functools.cmp_to_key(cmp))]: the sort is stable and only
    asks whether [cmp x y < 0]. *)
Section Sorted.
Context {A : Type} (cmp : A -> A -> Z).

Fixpoint insert_sorted (x : A) (l : list A) : list A :=
  match l with
  | [] => [x]
  | y :: l' => if (cmp y x <? 0)%Z then y :: insert_sorted x l' else x :: l
  end.

Fixpoint sorted (l : list A) : list A :=
  match l with
  | [] => []
  | x :: l' => insert_sorted x (sorted l')
  end.
End Sorted.

(** [x] may stand before [y] in a list sorted by [cmp]. *)
Definition precedes {A : Type} (cmp : A -> A -> Z) (x y : A) : Prop :=
  (cmp x y <= 0)%Z.

(** [max(map(f, l))] on a non-empty [l]; the callers test [len(l) > 0]. *)
Definition max_map {A} (f : A -> Z) (l : list A) : Z :=
  match l with
  | [] => 0
  | x :: l' => fold_left (fun m y => Z.max m (f y)) l' (f x)
  end.

(** ** [base64.b64encode] and [json.dumps] *)

Module Base64.

Definition alphabet : string :=
  "ABCDEFGHIJKLMNOPQRSTUVWXYZabcdefghijklmnopqrstuvwxyz0123456789+/".

Definition sextet (n : N) : string :=
  match String.get (N.to_nat n) alphabet with
  | Some c => String c EmptyString
  | None => EmptyString
  end.

Definition pad : string := "=".

Fixpoint b64encode (data : list Byte.byte) : string :=
  match data with
  | [] => EmptyString
  | [a] =>
      let x := Byte.to_N a in
      sextet (N.shiftr x 2) ++ sextet (N.shiftl (N.land x 3) 4) ++ pad ++ pad
  | [a; b] =>
      let x := Byte.to_N a in
      let y := Byte.to_N b in
      sextet (N.shiftr x 2)
      ++ sextet (N.lor (N.shiftl (N.land x 3) 4) (N.shiftr y 4))
      ++ sextet (N.shiftl (N.land y 15) 2) ++ pad
  | a :: b :: c :: rest =>
      let x := Byte.to_N a in
      let y := Byte.to_N b in
      let z := Byte.to_N c in
      sextet (N.shiftr x 2)
      ++ sextet (N.lor (N.shiftl (N.land x 3) 4) (N.shiftr y 4))
      ++ sextet (N.lor (N.shiftl (N.land y 15) 2) (N.shiftr z 6))
      ++ sextet (N.land z 63)
      ++ b64encode rest
  end.

End Base64.

Module Json.

(** The values the program passes to [json.dumps]; a [dict] keeps its
    keys in insertion order. *)
#[local] Set Warnings "-register-all".
Inductive value : Type :=
  | Null
  | Int (n : Z)
  | Str (s : string)
  | List (items : list value)
  | Dict (entries : list (string * value)).

Definition dquote : string := String "034" EmptyString.

Definition hex_digit (n : N) : string :=
  match String.get (N.to_nat n) "0123456789abcdef" with
  | Some c => String c EmptyString
  | None => EmptyString
  end.

(** One character of a string literal, with [ensure_ascii=True]. *)
Definition escape_char (c : ascii) : string :=
  let n := N_of_ascii c in
  if (n =? 34)%N then "\" ++ dquote
  else if (n =? 92)%N then "\\"
  else if (n =? 10)%N then "\n"
  else if (n =? 13)%N then "\r"
  else if (n =? 9)%N then "\t"
  else if (n =? 12)%N then "\f"
  else if (n =? 8)%N then "\b"
  else if ((32 <=? n) && (n <=? 126))%N then String c EmptyString
  else "\u00" ++ hex_digit (N.shiftr n 4) ++ hex_digit (N.land n 15).

Fixpoint escape (s : string) : string :=
  match s with
  | EmptyString => EmptyString
  | String c s' => escape_char c ++ escape s'
  end.

Definition quote (s : string) : string := dquote ++ escape s ++ dquote.

Definition newline_indent (level : nat) : string :=
  String "010" (Py.repeat_char " " (2 * level)).

(** [json.dumps(v, sort_keys=False, indent=2)] at nesting depth [level]. *)
Fixpoint dumps_at (level : nat) (v : value) : string :=
  match v with
  | Null => "null"
  | Int n => Py.str_of_int n
  | Str s => quote s
  | List [] => "[]"
  | List (x :: xs) =>
      "[" ++ newline_indent (S level) ++ dumps_at (S level) x
      ++ (fix more (l : list value) : string :=
            match l with
            | [] => EmptyString
            | y :: l' =>
                "," ++ newline_indent (S level) ++ dumps_at (S level) y ++ more l'
            end) xs
      ++ newline_indent level ++ "]"
  | Dict [] => "{}"
  | Dict ((k, x) :: xs) =>
      "{" ++ newline_indent (S level) ++ quote k ++ ": " ++ dumps_at (S level) x
      ++ (fix more (l : list (string * value)) : string :=
            match l with
            | [] => EmptyString
            | (k', y) :: l' =>
                "," ++ newline_indent (S level) ++ quote k' ++ ": "
                ++ dumps_at (S level) y ++ more l'
            end) xs
      ++ newline_indent level ++ "}"
  end.

Definition dumps (v : value) : string := dumps_at 0 v.

End Json.

(** ** The application object and its collaborators *)

(** The enumeration backend, [frida._frida]: a call returns the records or
    raises an exception [e]; [Failed msg] stands for one with
    [str(e) = msg]. *)
Inductive backend_result (A : Type) : Type :=
  | Listed (records : list A)
  | Failed (message : string).

Arguments Listed {A} records.
Arguments Failed {A} message.

Record Device : Type := {
  enumerate_processes : string -> backend_result Process;
  enumerate_applications : string -> backend_result Application;
}.

(** The fields of [self] that [ps.py] reads. [_have_terminal] and
    [_plain_terminal] are set by [ConsoleApplication]; [platform_system] is
    the value of [platform.system()]. *)
Record PSApplication : Type := {
  _list_only_applications : bool;
  _include_all_applications : bool;
  _output_format : string;
  _exclude_icons : bool;
  _terminal_type : string;
  _icon_size : Z;
  _device : option Device;
  _have_terminal : bool;
  _plain_terminal : bool;
  platform_system : string;
}.

(** The calls into [ConsoleApplication], in the order they are made. *)
Inductive event : Type :=
  | Print (line : string)
  | Log (level : string) (message : string)
  | UpdateStatus (message : string)
  | Exit (code : Z).

(** A listing emits events and then returns or raises. *)
Definition Listing (A : Type) : Type := (list event * outcome A)%type.

Definition ret {A} (a : A) : Listing A := ([], Returned a).

Definition emit (e : event) : Listing unit := ([e], Returned tt).

Definition lift {A} (o : outcome A) : Listing A := ([], o).

Definition bind {A B} (m : Listing A) (f : A -> Listing B) : Listing B :=
  match m with
  | (evs, Returned a) => let '(evs', r) := f a in ((evs ++ evs')%list, r)
  | (evs, Raised e) => (evs, Raised e)
  | (evs, Blocked) => (evs, Blocked)
  end.

Notation "x <- m ;; k" := (bind m (fun x => k))
  (at level 100, m at next level, right associativity).
Notation "m ;;; k" := (bind m (fun _ => k))
  (at level 100, right associativity).

Definition ESC : ascii := "027".
Definition BEL : ascii := "007".

Definition _render_icon (self : PSApplication) (icon : IconDescriptor) : string :=
  String ESC "]1337;File=inline=1;width=" ++ Py.str_of_int (_icon_size self)
  ++ "px;height=" ++ Py.str_of_int (_icon_size self)
  ++ "px;:" ++ Base64.b64encode (image icon) ++ String BEL EmptyString.

(** The name cell of one row; the loops of [_list_processes] and
    [_list_applications] compute it in the same way. *)
Definition name_cell `{Item A} (self : PSApplication) (icon_width : Z)
    (name_width : Z) (item : A) : outcome string :=
  if negb (icon_width =? 0)%Z then
    match item_parameters item !! "icons" with
    | Some icons =>
        match Py.index icons 0 with
        | Returned icon =>
            Returned (_render_icon self icon ++ " " ++ Py.ljust name_width (item_name item))
        | Raised e => Raised e
        | Blocked => Blocked
        end
    | None => Returned ("   " ++ " " ++ Py.ljust name_width (item_name item))
    end
  else Returned (Py.ljust name_width (item_name item)).

(** The [for] loop over the sorted records: one [Print] per row, up to the
    first row that raises. *)
Fixpoint print_rows {A} (row : A -> outcome string) (items : list A) : Listing unit :=
  match items with
  | [] => ret tt
  | item :: rest =>
      line <- lift (row item) ;;
      emit (Print line) ;;;
      print_rows row rest
  end.

Definition process_scope (self : PSApplication) : string :=
  if negb (_exclude_icons self) && String.eqb (_output_format self) "text"
     && String.eqb (_terminal_type self) "iterm2"
  then "full" else "minimal".

Definition application_scope (self : PSApplication) : string :=
  if String.eqb (_output_format self) "text"
     && String.eqb (_terminal_type self) "iterm2"
  then "full" else "minimal".

(** The [try] block around the backend call, with the assertion on
    [self._device]. *)
Definition call_backend {A} (self : PSApplication)
    (call : Device -> backend_result A) : backend_result A :=
  match _device self with
  | Some device => call device
  | None => Failed EmptyString
  end.

(** [icon_width = max(map(compute_icon_width, records))]. *)
Definition icon_width_of `{Item A} (records : list A) : Z :=
  max_map compute_icon_width records.

(** [line_format % (process.pid, name)] with the name cell of the row. *)
Definition process_row (self : PSApplication)
    (pid_column_width icon_width name_column_width : Z) (process : Process)
    : outcome string :=
  match name_cell self icon_width (name_column_width - icon_width) process with
  | Returned cell =>
      Returned (Py.rjust pid_column_width (Py.str_of_int (pid process)) ++ "  " ++ cell)
  | Raised e => Raised e
  | Blocked => Blocked
  end.

Definition process_entry (process : Process) : Json.value :=
  Json.Dict [("pid", Json.Int (pid process)); ("name", Json.Str (name process))].

Definition _list_processes (self : PSApplication) : Listing unit :=
  let scope := process_scope self in
  match call_backend self (fun device => enumerate_processes device scope) with
  | Failed e =>
      emit (UpdateStatus ("Failed to enumerate processes: " ++ e)) ;;;
      emit (Exit 1)
  | Listed processes =>
      (if String.eqb (_output_format self) "text" then
         if (0 <? Z.of_nat (length processes))%Z then
           let pid_column_width :=
             max_map (fun p => Py.len (Py.str_of_int (pid p))) processes in
           let icon_width := icon_width_of processes in
           let name_column_width :=
             icon_width + max_map (fun p => Py.len (name p)) processes in
           emit (Print (Py.rjust pid_column_width "PID" ++ "  " ++ "Name")) ;;;
           emit (Print (Py.mul_str pid_column_width "-" ++ "  "
                        ++ Py.mul_str name_column_width "-")) ;;;
           print_rows
             (process_row self pid_column_width icon_width name_column_width)
             (sorted compare_processes processes)
         else emit (Log "error" "No running processes.")
       else if String.eqb (_output_format self) "json" then
         emit (Print (Json.dumps
           (Json.List (map process_entry (sorted compare_processes processes)))))
       else ret tt) ;;;
      emit (Exit 0)
  end.

(** [line_format % (app.pid or "-", name, app.identifier)]. *)
Definition application_row (self : PSApplication)
    (pid_column_width icon_width name_column_width identifier_column_width : Z)
    (app : Application) : outcome string :=
  match name_cell self icon_width (name_column_width - icon_width) app with
  | Returned cell =>
      let pid_cell :=
        if (app_pid app =? 0)%Z then "-" else Py.str_of_int (app_pid app) in
      Returned (Py.rjust pid_column_width pid_cell ++ "  " ++ cell ++ "  "
                ++ Py.ljust identifier_column_width (app_identifier app))
  | Raised e => Raised e
  | Blocked => Blocked
  end.

(** [{"pid": (app.pid or None), "name": app.name, "identifier": app.identifier}]. *)
Definition application_entry (app : Application) : Json.value :=
  Json.Dict [("pid", if (app_pid app =? 0)%Z then Json.Null else Json.Int (app_pid app));
             ("name", Json.Str (app_name app));
             ("identifier", Json.Str (app_identifier app))].

(** The records that are listed: all of them with [-i], the running ones
    otherwise. *)
Definition listed_applications (self : PSApplication)
    (applications : list Application) : list Application :=
  if negb (_include_all_applications self)
  then List.filter (fun app => negb (app_pid app =? 0)%Z) applications
  else applications.

Definition _list_applications (self : PSApplication) : Listing unit :=
  let scope := application_scope self in
  match call_backend self (fun device => enumerate_applications device scope) with
  | Failed e =>
      emit (UpdateStatus ("Failed to enumerate applications: " ++ e)) ;;;
      emit (Exit 1)
  | Listed applications =>
      let applications := listed_applications self applications in
      (if String.eqb (_output_format self) "text" then
         if (0 <? Z.of_nat (length applications))%Z then
           let pid_column_width :=
             max_map (fun app => Py.len (Py.str_of_int (app_pid app))) applications in
           let icon_width := icon_width_of applications in
           let name_column_width :=
             icon_width + max_map (fun app => Py.len (app_name app)) applications in
           let identifier_column_width :=
             max_map (fun app => Py.len (app_identifier app)) applications in
           emit (Print (Py.rjust pid_column_width "PID" ++ "  "
                        ++ Py.ljust name_column_width "Name" ++ "  "
                        ++ Py.ljust identifier_column_width "Identifier")) ;;;
           emit (Print (Py.mul_str pid_column_width "-" ++ "  "
                        ++ Py.mul_str name_column_width "-" ++ "  "
                        ++ Py.mul_str identifier_column_width "-")) ;;;
           print_rows
             (application_row self pid_column_width icon_width name_column_width
                identifier_column_width)
             (sorted compare_applications applications)
         else if _include_all_applications self then
           emit (Log "error" "No installed applications.")
         else emit (Log "error" "No running applications.")
       else if String.eqb (_output_format self) "json" then
         emit (Print (Json.dumps
           (Json.List
              (if (0 <? Z.of_nat (length applications))%Z
               then map application_entry (sorted compare_applications applications)
               else []))))
       else ret tt) ;;;
      emit (Exit 0)
  end.

Definition _start (self : PSApplication) : Listing unit :=
  if _list_only_applications self then _list_applications self
  else _list_processes self.

(** ** Floating point: [int / int], [float * float] and [math.ceil] *)

Module Float.

Definition prec : Z := 53.
Definition emax : Z := 1024.

(** The exact value of an [int], before any rounding. *)
Definition exact (n : Z) : spec_float :=
  match n with
  | Z0 => S754_zero false
  | Zpos m => S754_finite false m 0
  | Zneg m => S754_finite true m 0
  end.

(** [a / b] on two [int]: the quotient rounded once, to nearest even. *)
Definition truediv (a b : Z) : outcome spec_float :=
  if (b =? 0)%Z then Raised ZeroDivisionError
  else
    match SFdiv prec emax (exact a) (exact b) with
    | S754_infinity _ => Raised OverflowError
    | q => Returned q
    end.

Definition mul (x y : spec_float) : spec_float := SFmul prec emax x y.

(** The literal [1.77]: the double nearest to 177/100. *)
Definition lit_1_77 : spec_float := S754_finite false 7971371340445778 (-52).

(** [math.ceil(x)]. *)
Definition ceil (x : spec_float) : outcome Z :=
  match x with
  | S754_zero _ => Returned 0
  | S754_finite s m e =>
      let v := if s then Zneg m else Zpos m in
      Returned (if (0 <=? e)%Z then v * 2 ^ e else - ((- v) / 2 ^ (- e)))%Z
  | S754_infinity _ => Raised OverflowError
  | S754_nan => Raised ValueError
  end.

End Float.

(** ** The terminal *)

(** The list [termios.tcgetattr] returns. *)
Record attributes : Type := {
  iflag : Z;
  oflag : Z;
  cflag : Z;
  lflag : Z;
  ispeed : Z;
  ospeed : Z;
  cc : list Z;
}.

(** What [sys.stdin.read(1)] meets next: a character, or a failure of the
    device. *)
Inductive input_event : Type :=
  | Char (c : ascii)
  | ReadFailure.

Inductive output_event : Type :=
  | Write (s : string)
  | Flush.

(** [out_budget]: how many calls on [sys.stdout] succeed before one fails
    ([None]: all of them). *)
Record terminal : Type := {
  attrs : attributes;
  input : list input_event;
  output : list output_event;
  out_budget : option nat;
}.

Definition Term (A : Type) : Type := terminal -> outcome A * terminal.

Definition tret {A} (a : A) : Term A := fun t => (Returned a, t).

Definition traise {A} (e : exn) : Term A := fun t => (Raised e, t).

Definition tlift {A} (o : outcome A) : Term A := fun t => (o, t).

Definition tbind {A B} (m : Term A) (f : A -> Term B) : Term B :=
  fun t =>
    match m t with
    | (Returned a, t') => f a t'
    | (Raised e, t') => (Raised e, t')
    | (Blocked, t') => (Blocked, t')
    end.

(** [try: body finally: cleanup]. *)
Definition try_finally {A} (body : Term A) (cleanup : Term unit) : Term A :=
  fun t =>
    match body t with
    | (Blocked, t') => (Blocked, t')
    | (r, t') =>
        match cleanup t' with
        | (Returned _, t'') => (r, t'')
        | (Raised e, t'') => (Raised e, t'')
        | (Blocked, t'') => (Blocked, t'')
        end
    end.

Notation "x <~ m ;; k" := (tbind m (fun x => k))
  (at level 100, m at next level, right associativity).
Notation "m ;;~ k" := (tbind m (fun _ => k))
  (at level 100, right associativity).

Definition tcgetattr : Term attributes := fun t => (Returned (attrs t), t).

Definition tcsetattr (a : attributes) : Term unit :=
  fun t => (Returned tt,
            {| attrs := a; input := input t; output := output t;
               out_budget := out_budget t |}).

Definition stdout_call (ev : output_event) : Term unit :=
  fun t =>
    match out_budget t with
    | Some O => (Raised OSError, t)
    | Some (S k) =>
        (Returned tt,
         {| attrs := attrs t; input := input t; output := (output t ++ [ev])%list;
            out_budget := Some k |})
    | None =>
        (Returned tt,
         {| attrs := attrs t; input := input t; output := (output t ++ [ev])%list;
            out_budget := None |})
    end.

Definition stdout_write (s : string) : Term unit := stdout_call (Write s).
Definition stdout_flush : Term unit := stdout_call Flush.

(** [sys.stdin.read(1)]: with nothing left to read the call does not
    return. *)
Definition stdin_read1 : Term ascii :=
  fun t =>
    match input t with
    | [] => (Blocked, t)
    | Char c :: rest =>
        (Returned c,
         {| attrs := attrs t; input := rest; output := output t;
            out_budget := out_budget t |})
    | ReadFailure :: rest =>
        (Raised OSError,
         {| attrs := attrs t; input := rest; output := output t;
            out_budget := out_budget t |})
    end.

(** The [while True] loop of [_read_terminal_response], by recursion on the
    pending input. *)
Fixpoint read_until (terminator : ascii) (pending : list input_event)
    (result : string) : outcome string * list input_event :=
  match pending with
  | [] => (Blocked, [])
  | Char ch :: rest =>
      if Ascii.eqb ch terminator then (Returned result, rest)
      else read_until terminator rest (result ++ String ch EmptyString)
  | ReadFailure :: rest => (Raised OSError, rest)
  end.

Definition _read_terminal_response (terminator : ascii) : Term string :=
  stdin_read1 ;;~
  stdin_read1 ;;~
  fun t =>
    let '(r, rest) := read_until terminator (input t) EmptyString in
    (r, {| attrs := attrs t; input := rest; output := output t;
           out_budget := out_budget t |}).

Definition obind {A B} (o : outcome A) (f : A -> outcome B) : outcome B :=
  match o with
  | Returned a => f a
  | Raised e => Raised e
  | Blocked => Blocked
  end.

(** [int(response.split(";")[1])]. *)
Definition geometry_field (response : string) : outcome Z :=
  obind (Py.index (Py.split response ";") 1) Py.int.

(** [response.split(" ", 1)[1].split(".", 2)]. *)
Definition version_tokens_of (response : string) : outcome (list string) :=
  obind (Py.index (Py.splitn response " " 1) 1)
        (fun version => Returned (Py.splitn version "." 2)).

(** [math.ceil((height_in_pixels / height_in_cells) * 1.77)]. *)
Definition icon_size_of (height_in_pixels height_in_cells : Z) : outcome Z :=
  obind (Float.truediv height_in_pixels height_in_cells)
        (fun ratio => Float.ceil (Float.mul ratio Float.lit_1_77)).

Section Negotiation.

(** [tty.setraw] and the [termios] flag constants come from the Python
    library of the platform: [setraw_attributes a] is the mode
    [tty.setraw] sets when the current one is [a]. *)
Variable setraw_attributes : attributes -> attributes.
Variables ICANON ECHO : Z.

Definition tty_setraw : Term unit :=
  a <~ tcgetattr ;; tcsetattr (setraw_attributes a).

(** [new_attributes[3] = new_attributes[3] & ~ICANON & ~ECHO]. *)
Definition clear_icanon_echo (a : attributes) : attributes :=
  {| iflag := iflag a; oflag := oflag a; cflag := cflag a;
     lflag := Z.land (Z.land (lflag a) (Z.lnot ICANON)) (Z.lnot ECHO);
     ispeed := ispeed a; ospeed := ospeed a; cc := cc a |}.

(** The body of the [try] statement. *)
Definition negotiate (icon_size : Z) : Term (string * Z) :=
  tty_setraw ;;~
  new_attributes <~ tcgetattr ;;
  tcsetattr (clear_icanon_echo new_attributes) ;;~
  stdout_write (String ESC "[1337n") ;;~
  stdout_write (String ESC "[5n") ;;~
  stdout_flush ;;~
  response <~ _read_terminal_response "n" ;;
  if negb (String.eqb response "0" || String.eqb response "3") then
    _read_terminal_response "n" ;;~
    if Py.startswith response "ITERM2 " then
      version_tokens <~ tlift (version_tokens_of response) ;;
      if (2 <=? Z.of_nat (length version_tokens))%Z then
        major <~ tlift (obind (Py.index version_tokens 0) Py.int) ;;
        if (3 <=? major)%Z then
          stdout_write (String ESC "[14t") ;;~
          stdout_flush ;;~
          pixels <~ _read_terminal_response "t" ;;
          height_in_pixels <~ tlift (geometry_field pixels) ;;
          stdout_write (String ESC "[18t") ;;~
          stdout_flush ;;~
          cells <~ _read_terminal_response "t" ;;
          height_in_cells <~ tlift (geometry_field cells) ;;
          icon_size <~ tlift (icon_size_of height_in_pixels height_in_cells) ;;
          tret ("iterm2", icon_size)
        else tret ("simple", icon_size)
      else tret ("simple", icon_size)
    else tret ("simple", icon_size)
  else tret ("simple", icon_size).

Definition _detect_terminal (self : PSApplication) : Term (string * Z) :=
  let icon_size := 0%Z in
  if negb (_have_terminal self) || _plain_terminal self
     || negb (String.eqb (platform_system self) "Darwin")
  then tret ("simple", icon_size)
  else
    old_attributes <~ tcgetattr ;;
    try_finally (negotiate icon_size) (tcsetattr old_attributes).

End Negotiation.

(** *** A concrete platform: macOS *)

Module Darwin.

Definition ICANON : Z := 256.
Definition ECHO : Z := 8.
Definition ISIG : Z := 128.
Definition IEXTEN : Z := 1024.
Definition BRKINT : Z := 2.
Definition ICRNL : Z := 256.
Definition INPCK : Z := 16.
Definition ISTRIP : Z := 32.
Definition IXON : Z := 512.
Definition OPOST : Z := 1.
Definition CSIZE : Z := 768.
Definition PARENB : Z := 4096.
Definition CS8 : Z := 768.

Definition clear (flags bits : Z) : Z := Z.land flags (Z.lnot bits).

(** The mode [tty.setraw] sets; the control characters are left as they
    are but for [VMIN] and [VTIME], which this model does not track. *)
Definition setraw_attributes (a : attributes) : attributes :=
  {| iflag := clear (iflag a) (Z.lor BRKINT (Z.lor ICRNL (Z.lor INPCK (Z.lor ISTRIP IXON))));
     oflag := clear (oflag a) OPOST;
     cflag := Z.lor (clear (cflag a) (Z.lor CSIZE PARENB)) CS8;
     lflag := clear (lflag a) (Z.lor ECHO (Z.lor ICANON (Z.lor IEXTEN ISIG)));
     ispeed := ispeed a; ospeed := ospeed a; cc := cc a |}.

Definition detect := _detect_terminal setraw_attributes ICANON ECHO.

(** A cooked terminal at 9600 baud. *)
Definition cooked : attributes :=
  {| iflag := 27394; oflag := 3; cflag := 19200; lflag := 1483;
     ispeed := 9600; ospeed := 9600; cc := [] |}.

(** A terminal that will answer with [replies], one character after the
    other. *)
Fixpoint chars (s : string) : list input_event :=
  match s with
  | EmptyString => []
  | String c s' => Char c :: chars s'
  end.

Definition answering (replies : string) : terminal :=
  {| attrs := cooked; input := chars replies; output := []; out_budget := None |}.

(** The reply to a probe: [ESC] [[] body terminator. *)
Definition reply (body : string) (terminator : ascii) : string :=
  String ESC "[" ++ body ++ String terminator EmptyString.

Definition mac (have_terminal plain : bool) : PSApplication :=
  {| _list_only_applications := false; _include_all_applications := false;
     _output_format := "text"; _exclude_icons := false;
     _terminal_type := "simple"; _icon_size := 0; _device := None;
     _have_terminal := have_terminal; _plain_terminal := plain;
     platform_system := "Darwin" |}.

End Darwin.

(** * Definitions the statements use *)

(** The two comparators share one shape: a group flag, then the name. *)
Definition group_then_name (ga gb : bool) (na nb : string) : Z :=
  if Bool.eqb ga gb then
    if Py.str_gt na nb then 1
    else if Py.str_lt na nb then -1
    else 0
  else if ga then -1
  else 1.

(** ** Records, devices and terminals used as examples, and the words of the specification *)

Definition png_icon : IconDescriptor :=
  {| format := "png"; image := [Byte.x89; Byte.x50; Byte.x4e; Byte.x47] |}.

Definition rgba_icon : IconDescriptor :=
  {| format := "rgba"; image := [Byte.xff; Byte.x00; Byte.x00; Byte.xff] |}.

(** A record "with at least one icon descriptor", in the words of the
    specification. *)
Definition has_icon_descriptor (p : Process) : bool :=
  match parameters p !! "icons" with
  | Some (_ :: _) => true
  | _ => false
  end.

Definition process_b_with_png : Process :=
  {| pid := 1; name := "b"; parameters := {[ "icons" := [png_icon] ]} |}.

Definition process_a_with_no_descriptor : Process :=
  {| pid := 2; name := "a"; parameters := {[ "icons" := [] ]} |}.

(** A record carries a [png] icon descriptor. *)
Definition carries_png `{Item A} (item : A) : Prop :=
  exists icons, item_parameters item !! "icons" = Some icons
                /\ Exists (fun icon => format icon = "png") icons.

Definition safari_process (scope : string) : Process :=
  {| pid := 501; name := "Safari";
     parameters := if String.eqb scope "full" then {[ "icons" := [png_icon] ]} else ∅ |}.

Definition safari_application (scope : string) : Application :=
  {| app_identifier := "com.apple.Safari"; app_name := "Safari"; app_pid := 501;
     app_parameters := if String.eqb scope "full" then {[ "icons" := [png_icon] ]} else ∅ |}.

Definition safari_device : Device :=
  {| enumerate_processes := fun scope => Listed [safari_process scope];
     enumerate_applications := fun scope => Listed [safari_application scope] |}.

(** [frida-ps -a -e] on iTerm2. *)
Definition ps_applications_exclude_icons : PSApplication :=
  {| _list_only_applications := true; _include_all_applications := false;
     _output_format := "text"; _exclude_icons := true;
     _terminal_type := "iterm2"; _icon_size := 31; _device := Some safari_device;
     _have_terminal := true; _plain_terminal := false;
     platform_system := "Darwin" |}.

(** [frida-ps -e] on iTerm2. *)
Definition ps_processes_exclude_icons : PSApplication :=
  {| _list_only_applications := false; _include_all_applications := false;
     _output_format := "text"; _exclude_icons := true;
     _terminal_type := "iterm2"; _icon_size := 31; _device := Some safari_device;
     _have_terminal := true; _plain_terminal := false;
     platform_system := "Darwin" |}.

Definition process_with_rgba_icon : Process :=
  {| pid := 7; name := "x"; parameters := {[ "icons" := [rgba_icon; png_icon] ]} |}.

Definition process_with_empty_icons : Process :=
  {| pid := 8; name := "y"; parameters := {[ "icons" := [] ]} |}.

Definition not_exit (e : event) : Prop :=
  match e with
  | Exit _ => False
  | _ => True
  end.

Definition is_print (e : event) : Prop :=
  match e with
  | Print _ => True
  | _ => False
  end.

Definition foo : Application :=
  {| app_identifier := "com.foo"; app_name := "Foo"; app_pid := 0;
     app_parameters := ∅ |}.

Definition bar : Application :=
  {| app_identifier := "com.bar"; app_name := "Bar"; app_pid := 42;
     app_parameters := ∅ |}.

Definition foo_bar_device : Device :=
  {| enumerate_processes := fun _ => Listed [];
     enumerate_applications := fun _ => Listed [foo; bar] |}.

(** [frida-ps -a -j] and [frida-ps -a -i -j]. *)
Definition ps_json (include_all : bool) : PSApplication :=
  {| _list_only_applications := true; _include_all_applications := include_all;
     _output_format := "json"; _exclude_icons := false;
     _terminal_type := "simple"; _icon_size := 0; _device := Some foo_bar_device;
     _have_terminal := false; _plain_terminal := false;
     platform_system := "Linux" |}.

Definition bar_entry : Json.value :=
  Json.Dict [("pid", Json.Int 42); ("name", Json.Str "Bar");
             ("identifier", Json.Str "com.bar")].

Definition foo_entry : Json.value :=
  Json.Dict [("pid", Json.Null); ("name", Json.Str "Foo");
             ("identifier", Json.Str "com.foo")].

(** [_read_terminal_response] as a function of the pending input alone. *)
Definition read_response (terminator : ascii) (pending : list input_event)
    : outcome string * list input_event :=
  match pending with
  | [] => (Blocked, [])
  | ReadFailure :: rest => (Raised OSError, rest)
  | Char _ :: [] => (Blocked, [])
  | Char _ :: ReadFailure :: rest => (Raised OSError, rest)
  | Char _ :: Char _ :: rest => read_until terminator rest EmptyString
  end.

Definition with_input (t : terminal) (pending : list input_event) : terminal :=
  {| attrs := attrs t; input := pending; output := output t;
     out_budget := out_budget t |}.

(** The two geometry probes as a function of the pending input: the icon
    size they lead to. *)
Definition geometry (pending : list input_event) : outcome Z :=
  match read_response "t" pending with
  | (Returned pixels, rest) =>
      obind (geometry_field pixels) (fun height_in_pixels =>
        match read_response "t" rest with
        | (Returned cells, _) =>
            obind (geometry_field cells) (fun height_in_cells =>
              icon_size_of height_in_pixels height_in_cells)
        | (Raised e, _) => Raised e
        | (Blocked, _) => Blocked
        end)
  | (Raised e, _) => Raised e
  | (Blocked, _) => Blocked
  end.

(** What the negotiation returns once the first response [r1] is neither
    ["0"] nor ["3"] and the second response was read. *)
Definition after_first_response (r1 : string) (pending : list input_event)
    : outcome (string * Z) :=
  if Py.startswith r1 "ITERM2 " then
    obind (version_tokens_of r1) (fun version_tokens =>
      if (2 <=? Z.of_nat (length version_tokens))%Z then
        obind (obind (Py.index version_tokens 0) Py.int) (fun major =>
          if (3 <=? major)%Z then
            obind (geometry pending) (fun icon_size => Returned ("iterm2", icon_size))
          else Returned ("simple", 0%Z))
      else Returned ("simple", 0%Z))
  else Returned ("simple", 0%Z).

(** A step that leaves the attributes of the terminal as they are. *)
Definition keeps_attrs {A} (m : Term A) : Prop :=
  forall t, attrs (snd (m t)) = attrs t.

(** The major version of [v]: the first of its dot-separated components. *)
Definition major_of (v : string) : string := hd EmptyString (Py.splitn v "." 2).

(** iTerm2 3.4.19 in a window of 340 pixels and 20 rows. *)
Definition iterm2_340_20 : terminal :=
  Darwin.answering (Darwin.reply "ITERM2 3.4.19" "n" ++ Darwin.reply "0" "n"
                    ++ Darwin.reply "4;340;600" "t" ++ Darwin.reply "8;20;80" "t").

(** iTerm2 3.4.19 in a window of 800 pixels and 24 rows. *)
Definition iterm2_800_24 : terminal :=
  Darwin.answering (Darwin.reply "ITERM2 3.4.19" "n" ++ Darwin.reply "0" "n"
                    ++ Darwin.reply "4;800;1280" "t" ++ Darwin.reply "8;24;80" "t").

(** A terminal that reports the version ["3"], without a minor version. *)
Definition iterm2_version_3 : terminal :=
  Darwin.answering (Darwin.reply "ITERM2 3" "n" ++ Darwin.reply "0" "n"
                    ++ Darwin.reply "4;340;600" "t" ++ Darwin.reply "8;20;80" "t").

(** A terminal that reports the version ["beta.1"]. *)
Definition iterm2_version_beta : terminal :=
  Darwin.answering (Darwin.reply "ITERM2 beta.1" "n" ++ Darwin.reply "0" "n"
                    ++ Darwin.reply "4;340;600" "t" ++ Darwin.reply "8;20;80" "t").

(** A terminal whose device fails after the first response. *)
Definition iterm2_read_failure : terminal :=
  {| attrs := Darwin.cooked;
     input := (Darwin.chars (Darwin.reply "ITERM2 3.4.19" "n") ++ [ReadFailure])%list;
     output := []; out_budget := None |}.

(** A terminal whose output fails at the second write of the probes. *)
Definition iterm2_write_failure : terminal :=
  {| attrs := Darwin.cooked;
     input := Darwin.chars (Darwin.reply "ITERM2 3.4.19" "n");
     output := []; out_budget := Some 1%nat |}.

(** A terminal that reports a window size without a height. *)
Definition iterm2_no_height : terminal :=
  Darwin.answering (Darwin.reply "ITERM2 3.4.19" "n" ++ Darwin.reply "0" "n"
                    ++ Darwin.reply "4" "t").

(** The major version "parsed from the dot-separated version string
    following the prefix", in the words of the specification. *)
Definition claimed_major (response : string) : option Z :=
  Py.parse_int
    (hd EmptyString
        (Py.split (String.substring 7 (String.length response - 7) response) ".")).

(** [ceil((height_pixels / height_cells) * 1.77)] in the words of the
    specification: the ceiling of the exact product. *)
Definition spec_icon_size (height_pixels height_cells : Z) : Z :=
  Qceiling (inject_Z height_pixels / inject_Z height_cells * (177 # 100))%Q.

(** * The rest of the program *)

(** The options [_initialize] reads from the parsed command line, under
    their [dest] names. *)
Record Options : Type := {
  list_only_applications : bool;
  include_all_applications : bool;
  output_format : string;
  exclude_icons : bool;
}.

(** [parser.error(message)] prints the message and ends the program;
    otherwise [_initialize] returns with [self] filled in. *)
Inductive initialized : Type :=
  | ParserError (message : string)
  | Ready (self : PSApplication).

Section Initialize.
Variable setraw_attributes : attributes -> attributes.
Variables ICANON ECHO : Z.

(** [self] arrives with the fields [ConsoleApplication] has set
    ([_device], [_have_terminal], [_plain_terminal]). *)
Definition _initialize (self : PSApplication) (options : Options) : Term initialized :=
  if include_all_applications options && negb (list_only_applications options)
  then tret (ParserError "-i cannot be used without -a")
  else
    let self :=
      {| _list_only_applications := list_only_applications options;
         _include_all_applications := include_all_applications options;
         _output_format := output_format options;
         _exclude_icons := exclude_icons options;
         _terminal_type := _terminal_type self;
         _icon_size := _icon_size self;
         _device := _device self;
         _have_terminal := _have_terminal self;
         _plain_terminal := _plain_terminal self;
         platform_system := platform_system self |} in
    detected <~ _detect_terminal setraw_attributes ICANON ECHO self ;;
    tret (Ready
      {| _list_only_applications := _list_only_applications self;
         _include_all_applications := _include_all_applications self;
         _output_format := _output_format self;
         _exclude_icons := _exclude_icons self;
         _terminal_type := fst detected;
         _icon_size := snd detected;
         _device := _device self;
         _have_terminal := _have_terminal self;
         _plain_terminal := _plain_terminal self;
         platform_system := platform_system self |}).

End Initialize.

(** The escape sequences the negotiation may write, in the order of the
    source. *)
Definition probes : list output_event :=
  [Write (String ESC "[1337n"); Write (String ESC "[5n"); Flush;
   Write (String ESC "[14t"); Flush;
   Write (String ESC "[18t"); Flush].

(** The terminal has received the first [j] probes since its output was
    [o]. *)
Definition wrote (o : list output_event) (j : nat) (t : terminal) : Prop :=
  output t = (o ++ firstn j probes)%list.

(** [advances j K kmax m]: started when the first [j] probes are written, [m]
    ends with between [j] and [kmax] probes written, and with exactly [K a]
    of them when it returns [a]. *)
Definition advances {A} (j : nat) (K : A -> nat) (kmax : nat) (m : Term A) : Prop :=
  forall o t, wrote o j t ->
    (exists i, (j <= i <= kmax)%nat /\ wrote o i (snd (m t)))
    /\ (forall a, fst (m t) = Returned a -> wrote o (K a) (snd (m t))).

(** The number of probes written when the negotiation returns [r]. *)
Definition probes_of_result (r : string * Z) : nat :=
  if String.eqb (fst r) "iterm2" then 7%nat else 3%nat.

(** [returns_only P m]: whenever [m] returns, the value satisfies [P]. *)
Definition returns_only {A} (P : A -> Prop) (m : Term A) : Prop :=
  forall t a, fst (m t) = Returned a -> P a.

(** The two results of the negotiation. *)
Definition capability (r : string * Z) : Prop :=
  r = ("simple", 0%Z) \/ exists icon_size, r = ("iterm2", icon_size).

(** iTerm2 3.4.19 reporting a window of 340 pixels and no row. *)
Definition iterm2_no_rows : terminal :=
  Darwin.answering (Darwin.reply "ITERM2 3.4.19" "n" ++ Darwin.reply "0" "n"
                    ++ Darwin.reply "4;340;600" "t" ++ Darwin.reply "8;0;0" "t").

(** A character that a terminal displays: no control character. *)
Definition printable (c : ascii) : bool :=
  ((32 <=? N_of_ascii c) && (N_of_ascii c <=? 126))%N.

Fixpoint all_printable (s : string) : bool :=
  match s with
  | EmptyString => true
  | String c s' => printable c && all_printable s'
  end.

(** [frida-ps] on a machine without a terminal, before [_initialize]. *)
Definition headless : PSApplication :=
  {| _list_only_applications := false; _include_all_applications := false;
     _output_format := "text"; _exclude_icons := false;
     _terminal_type := "simple"; _icon_size := 0; _device := Some safari_device;
     _have_terminal := false; _plain_terminal := false;
     platform_system := "Linux" |}.

Definition three_processes : list Process :=
  [ {| pid := 1204; name := "sshd"; parameters := ∅ |};
    {| pid := 1; name := "launchd"; parameters := ∅ |};
    {| pid := 77; name := "sh"; parameters := ∅ |} ].

Definition three_process_device : Device :=
  {| enumerate_processes := fun _ => Listed three_processes;
     enumerate_applications := fun _ => Listed [foo; bar] |}.

(** [frida-ps] and [frida-ps -a -i] in text mode on a plain terminal. *)
Definition ps_text (applications include_all : bool) : PSApplication :=
  {| _list_only_applications := applications;
     _include_all_applications := include_all;
     _output_format := "text"; _exclude_icons := false;
     _terminal_type := "simple"; _icon_size := 0;
     _device := Some three_process_device;
     _have_terminal := true; _plain_terminal := false;
     platform_system := "Linux" |}.

(** [frida-ps -j] on iTerm2. *)
Definition ps_processes_json : PSApplication :=
  {| _list_only_applications := false; _include_all_applications := false;
     _output_format := "json"; _exclude_icons := false;
     _terminal_type := "iterm2"; _icon_size := 31;
     _device := Some three_process_device;
     _have_terminal := true; _plain_terminal := false;
     platform_system := "Darwin" |}.

Definition empty_icons_device : Device :=
  {| enumerate_processes :=
       fun _ => Listed [process_with_empty_icons; process_with_rgba_icon];
     enumerate_applications := fun _ => Listed [] |}.

(** [frida-ps] on iTerm2, with a backend that returns an empty icon list. *)
Definition ps_empty_icons : PSApplication :=
  {| _list_only_applications := false; _include_all_applications := false;
     _output_format := "text"; _exclude_icons := false;
     _terminal_type := "iterm2"; _icon_size := 31;
     _device := Some empty_icons_device;
     _have_terminal := true; _plain_terminal := false;
     platform_system := "Darwin" |}.

(** [frida-ps] on iTerm2, icons wanted. *)
Definition ps_processes_with_icons : PSApplication :=
  {| _list_only_applications := false; _include_all_applications := false;
     _output_format := "text"; _exclude_icons := false;
     _terminal_type := "iterm2"; _icon_size := 31; _device := Some safari_device;
     _have_terminal := true; _plain_terminal := false;
     platform_system := "Darwin" |}.

(** * Checks of the primitives *)

Example str_of_int_42 : Py.str_of_int 42 = "42". Proof. reflexivity. Qed.
Example str_of_int_0 : Py.str_of_int 0 = "0". Proof. reflexivity. Qed.
Example str_of_int_neg : Py.str_of_int (-7) = "-7". Proof. reflexivity. Qed.
Example rjust_pid : Py.rjust 5 "PID" = "  PID". Proof. reflexivity. Qed.
Example ljust_name : Py.ljust 6 "Name" = "Name  ". Proof. reflexivity. Qed.
Example ljust_wide : Py.ljust 2 "Name" = "Name". Proof. reflexivity. Qed.
Example split_fields : Py.split "4;340;600" ";" = ["4"; "340"; "600"].
Proof. reflexivity. Qed.
Example splitn_version : Py.splitn "3.4.19" "." 2 = ["3"; "4"; "19"].
Proof. reflexivity. Qed.
Example splitn_rest : Py.splitn "3.4.19.1" "." 2 = ["3"; "4"; "19.1"].
Proof. reflexivity. Qed.
Example splitn_space : Py.splitn "ITERM2 3.4 x" " " 1 = ["ITERM2"; "3.4 x"].
Proof. reflexivity. Qed.
Example int_plain : Py.int "340" = Returned 340. Proof. reflexivity. Qed.
Example int_spaces : Py.int " -1_0 " = Returned (-10). Proof. reflexivity. Qed.
Example int_bad : Py.int "3a" = Raised ValueError. Proof. reflexivity. Qed.
Example int_empty : Py.int EmptyString = Raised ValueError. Proof. reflexivity. Qed.
Example int_underscore : Py.int "_3" = Raised ValueError. Proof. reflexivity. Qed.

Example b64_Man : Base64.b64encode [Byte.x4d; Byte.x61; Byte.x6e] = "TWFu".
Proof. reflexivity. Qed.
Example b64_Ma : Base64.b64encode [Byte.x4d; Byte.x61] = "TWE=".
Proof. reflexivity. Qed.
Example b64_M : Base64.b64encode [Byte.x4d] = "TQ==".
Proof. reflexivity. Qed.

Example lit_1_77_nearest :
  SFdiv Float.prec Float.emax (Float.exact 177) (Float.exact 100) = Float.lit_1_77.
Proof. vm_compute. reflexivity. Qed.

Example detect_iterm2 :
  fst (Darwin.detect (Darwin.mac true false)
         (Darwin.answering (Darwin.reply "ITERM2 3.4.19" "n" ++ Darwin.reply "0" "n"
                            ++ Darwin.reply "4;340;600" "t"
                            ++ Darwin.reply "8;20;80" "t")))
  = Returned ("iterm2", 31%Z).
Proof. vm_compute. reflexivity. Qed.

Example detect_other_terminal :
  fst (Darwin.detect (Darwin.mac true false) (Darwin.answering (Darwin.reply "0" "n")))
  = Returned ("simple", 0%Z).
Proof. vm_compute. reflexivity. Qed.

(** * Properties *)

(** ** The order on strings *)

Lemma ascii_compare_refl (c : ascii) : Ascii.compare c c = Eq.
Proof. unfold Ascii.compare. apply N.compare_refl. Qed.

Lemma string_compare_refl (s : string) : String.compare s s = Eq.
Proof.
  induction s as [|c s IH]; simpl; [reflexivity|].
  rewrite ascii_compare_refl. exact IH.
Qed.

Lemma string_compare_eq (s1 s2 : string) : String.compare s1 s2 = Eq <-> s1 = s2.
Proof.
  split; [apply String.compare_eq_iff|].
  intros ->. apply string_compare_refl.
Qed.

Lemma string_compare_gt_lt (s1 s2 : string) :
  String.compare s1 s2 = Gt <-> String.compare s2 s1 = Lt.
Proof.
  rewrite (String.compare_antisym s2 s1).
  destruct (String.compare s1 s2); simpl; split; congruence.
Qed.

Lemma ascii_compare_lt_trans (a b c : ascii) :
  Ascii.compare a b = Lt -> Ascii.compare b c = Lt -> Ascii.compare a c = Lt.
Proof.
  unfold Ascii.compare. rewrite !N.compare_lt_iff. lia.
Qed.

Lemma string_compare_lt_trans (s1 s2 s3 : string) :
  String.compare s1 s2 = Lt -> String.compare s2 s3 = Lt -> String.compare s1 s3 = Lt.
Proof.
  revert s2 s3.
  induction s1 as [|a s1 IH]; intros [|b s2] [|c s3]; simpl; try congruence.
  destruct (Ascii.compare a b) eqn:Hab; try congruence;
    destruct (Ascii.compare b c) eqn:Hbc; try congruence; intros H12 H23.
  - apply Ascii.compare_eq_iff in Hab, Hbc. subst.
    rewrite ascii_compare_refl. eauto.
  - apply Ascii.compare_eq_iff in Hab. subst. rewrite Hbc. reflexivity.
  - apply Ascii.compare_eq_iff in Hbc. subst. rewrite Hab. reflexivity.
  - rewrite (ascii_compare_lt_trans a b c Hab Hbc). reflexivity.
Qed.

(** ** The shape of the comparators *)

Lemma compare_processes_shape (a b : Process) :
  compare_processes a b =
  group_then_name (has_key "icons" (parameters a)) (has_key "icons" (parameters b))
                  (name a) (name b).
Proof. reflexivity. Qed.

Lemma compare_applications_shape (a b : Application) :
  compare_applications a b =
  group_then_name (negb (app_pid a =? 0)%Z) (negb (app_pid b =? 0)%Z)
                  (app_name a) (app_name b).
Proof. reflexivity. Qed.

Lemma group_then_name_cases (ga gb : bool) (na nb : string) :
  (group_then_name ga gb na nb = -1
     /\ (ga = true /\ gb = false \/ ga = gb /\ String.compare na nb = Lt))
  \/ (group_then_name ga gb na nb = 0 /\ ga = gb /\ na = nb)
  \/ (group_then_name ga gb na nb = 1
     /\ (ga = false /\ gb = true \/ ga = gb /\ String.compare na nb = Gt)).
Proof.
  unfold group_then_name, Py.str_gt, Py.str_lt.
  destruct ga, gb; simpl;
    destruct (String.compare na nb) eqn:Hc;
    try (apply String.compare_eq_iff in Hc); intuition auto.
Qed.

Lemma group_then_name_antisym (ga gb : bool) (na nb : string) :
  group_then_name gb ga nb na = (- group_then_name ga gb na nb)%Z.
Proof.
  unfold group_then_name, Py.str_gt, Py.str_lt.
  rewrite (String.compare_antisym nb na).
  destruct ga, gb; simpl; try reflexivity;
    destruct (String.compare na nb); reflexivity.
Qed.

Lemma group_then_name_neg (ga gb : bool) (na nb : string) :
  (group_then_name ga gb na nb < 0)%Z <->
  (ga = true /\ gb = false) \/ (ga = gb /\ String.compare na nb = Lt).
Proof.
  destruct (group_then_name_cases ga gb na nb)
    as [[-> H]|[[-> [-> ->]]|[-> H]]].
  - split; [auto|lia].
  - rewrite string_compare_refl. split; [lia|].
    intros [[-> ?]|[_ ?]]; congruence.
  - split; [lia|]. destruct H as [[-> ->]|[-> H]]; intros [[? ?]|[? ?]]; congruence.
Qed.

Lemma group_then_name_zero (ga gb : bool) (na nb : string) :
  group_then_name ga gb na nb = 0 <-> ga = gb /\ na = nb.
Proof.
  destruct (group_then_name_cases ga gb na nb)
    as [[E H]|[[E H]|[E H]]]; rewrite E.
  - split; [lia|]. rewrite <- string_compare_eq.
    destruct H as [[-> ->]|[_ H]]; intros [? ?]; congruence.
  - tauto.
  - split; [lia|]. rewrite <- string_compare_eq.
    destruct H as [[-> ->]|[_ H]]; intros [? ?]; congruence.
Qed.

Lemma group_then_name_trans (ga gb gc : bool) (na nb nc : string) :
  (group_then_name ga gb na nb < 0)%Z ->
  (group_then_name gb gc nb nc < 0)%Z ->
  (group_then_name ga gc na nc < 0)%Z.
Proof.
  rewrite !group_then_name_neg.
  intros [[-> ->]|[-> H1]] [[? ->]|[-> H2]]; try congruence; auto.
  right. split; [reflexivity|]. eapply string_compare_lt_trans; eassumption.
Qed.

Lemma group_then_name_trans_le (ga gb gc : bool) (na nb nc : string) :
  (group_then_name ga gb na nb <= 0)%Z ->
  (group_then_name gb gc nb nc <= 0)%Z ->
  (group_then_name ga gc na nc <= 0)%Z.
Proof.
  intros H1 H2.
  destruct (Z.eq_dec (group_then_name ga gb na nb) 0) as [E1|N1].
  - apply group_then_name_zero in E1 as [-> ->]. exact H2.
  - destruct (Z.eq_dec (group_then_name gb gc nb nc) 0) as [E2|N2].
    + apply group_then_name_zero in E2 as [-> ->]. exact H1.
    + apply Z.lt_le_incl.
      apply (group_then_name_trans ga gb gc na nb nc); lia.
Qed.

(** ** The stable sort *)

Section SortedProperties.
Context {A : Type} (cmp : A -> A -> Z).

Lemma insert_sorted_perm (x : A) (l : list A) :
  Permutation (insert_sorted cmp x l) (x :: l).
Proof.
  induction l as [|y l IH]; simpl; [apply Permutation_refl|].
  destruct (cmp y x <? 0)%Z; [|apply Permutation_refl].
  eapply perm_trans; [apply perm_skip, IH|apply perm_swap].
Qed.

Lemma sorted_perm (l : list A) : Permutation (sorted cmp l) l.
Proof.
  induction l as [|x l IH]; simpl; [apply perm_nil|].
  eapply perm_trans; [apply insert_sorted_perm|apply perm_skip, IH].
Qed.

Lemma sorted_length (l : list A) : length (sorted cmp l) = length l.
Proof. apply Permutation_length, sorted_perm. Qed.

Hypothesis cmp_antisym : forall x y, cmp y x = (- cmp x y)%Z.
Hypothesis cmp_trans :
  forall x y z, (cmp x y <= 0)%Z -> (cmp y z <= 0)%Z -> (cmp x z <= 0)%Z.

Lemma insert_sorted_sorted (x : A) (l : list A) :
  StronglySorted (precedes cmp) l -> StronglySorted (precedes cmp) (insert_sorted cmp x l).
Proof.
  induction l as [|y l IH]; simpl; intros Hs.
  - constructor; [constructor|constructor].
  - apply StronglySorted_inv in Hs as [Hl Hy].
    destruct (cmp y x <? 0)%Z eqn:Hlt.
    + apply Z.ltb_lt in Hlt. constructor; [apply IH, Hl|].
      apply (Permutation_Forall (Permutation_sym (insert_sorted_perm x l))).
      constructor; [unfold precedes; lia|exact Hy].
    + apply Z.ltb_ge in Hlt.
      assert (Hxy : precedes cmp x y).
      { unfold precedes. rewrite (cmp_antisym y x). lia. }
      constructor; [constructor; assumption|].
      constructor; [exact Hxy|].
      eapply Forall_impl; [exact Hy|].
      intros z Hyz. exact (cmp_trans x y z Hxy Hyz).
Qed.

Lemma sorted_sorted (l : list A) : StronglySorted (precedes cmp) (sorted cmp l).
Proof.
  induction l as [|x l IH]; simpl; [constructor|].
  apply insert_sorted_sorted, IH.
Qed.
End SortedProperties.

Lemma compare_processes_antisym (a b : Process) :
  compare_processes b a = (- compare_processes a b)%Z.
Proof. rewrite !compare_processes_shape. apply group_then_name_antisym. Qed.

Lemma compare_processes_trans (a b c : Process) :
  (compare_processes a b <= 0)%Z -> (compare_processes b c <= 0)%Z ->
  (compare_processes a c <= 0)%Z.
Proof. rewrite !compare_processes_shape. apply group_then_name_trans_le. Qed.

Lemma compare_applications_antisym (a b : Application) :
  compare_applications b a = (- compare_applications a b)%Z.
Proof. rewrite !compare_applications_shape. apply group_then_name_antisym. Qed.

Lemma compare_applications_trans (a b c : Application) :
  (compare_applications a b <= 0)%Z -> (compare_applications b c <= 0)%Z ->
  (compare_applications a c <= 0)%Z.
Proof. rewrite !compare_applications_shape. apply group_then_name_trans_le. Qed.

Lemma sorted_applications_sorted (l : list Application) :
  StronglySorted (precedes compare_applications) (sorted compare_applications l).
Proof.
  apply sorted_sorted;
    [apply compare_applications_antisym|apply compare_applications_trans].
Qed.

Lemma sorted_processes_sorted (l : list Process) :
  StronglySorted (precedes compare_processes) (sorted compare_processes l).
Proof.
  apply sorted_sorted; [apply compare_processes_antisym|apply compare_processes_trans].
Qed.

(** ** Process comparator *)

(** C3, as stated, fails: a record with an icon descriptor does not order
    before every record without one. The record ["a"] has an ["icons"] entry
    that holds no descriptor; the comparator puts it in the icon group and
    orders the two records by name, so the record ["b"], which has a
    descriptor, comes after it. *)
Lemma compare_processes_descriptor_counterexample :
  has_icon_descriptor process_b_with_png = true
  /\ has_icon_descriptor process_a_with_no_descriptor = false
  /\ compare_processes process_b_with_png process_a_with_no_descriptor = 1
  /\ sorted compare_processes [process_b_with_png; process_a_with_no_descriptor]
     = [process_a_with_no_descriptor; process_b_with_png].
Proof. vm_compute. repeat split; reflexivity. Qed.

(** C3, amended: [compare_processes] is a total order on the keys (presence
    of an ["icons"] entry, name). It returns -1, 0 or 1, is antisymmetric and
    transitive; a record whose parameters contain an ["icons"] entry orders
    strictly before a record whose parameters contain none; two records of the
    same group are ordered by their names, compared character by character;
    and the result is 0 exactly when the two records agree on the presence of
    the entry and on the name. *)
Theorem compare_processes_total_order : forall a b c : Process,
  let entry x := has_key "icons" (parameters x) in
  (compare_processes a b = -1 \/ compare_processes a b = 0
   \/ compare_processes a b = 1)
  /\ compare_processes b a = (- compare_processes a b)%Z
  /\ ((compare_processes a b <= 0)%Z -> (compare_processes b c <= 0)%Z ->
      (compare_processes a c <= 0)%Z)
  /\ (is_Some (parameters a !! "icons") -> parameters b !! "icons" = None ->
      compare_processes a b = -1 /\ compare_processes b a = 1)
  /\ (entry a = entry b ->
      (compare_processes a b = -1 <-> String.compare (name a) (name b) = Lt)
      /\ (compare_processes a b = 1 <-> String.compare (name a) (name b) = Gt))
  /\ (compare_processes a b = 0 <-> entry a = entry b /\ name a = name b).
Proof.
  intros a b c entry.
  split; [|split; [|split; [|split; [|split]]]].
  - rewrite compare_processes_shape.
    destruct (group_then_name_cases (entry a) (entry b) (name a) (name b))
      as [[E _]|[[E _]|[E _]]]; auto.
  - apply compare_processes_antisym.
  - apply compare_processes_trans.
  - intros Ha Hb.
    assert (Ea : entry a = true) by (apply bool_decide_eq_true; exact Ha).
    assert (Eb : entry b = false).
    { apply bool_decide_eq_false. rewrite Hb. intros [x Hx]. discriminate Hx. }
    rewrite (compare_processes_antisym a b), compare_processes_shape.
    fold (entry a) (entry b). rewrite Ea, Eb. split; reflexivity.
  - intros E. rewrite compare_processes_shape. fold (entry a) (entry b).
    destruct (group_then_name_cases (entry a) (entry b) (name a) (name b))
      as [[-> H]|[[-> [_ H]]|[-> H]]].
    + destruct H as [[Ea Eb]|[_ H]]; [congruence|].
      rewrite H. split; split; congruence.
    + rewrite H, string_compare_refl. split; split; congruence.
    + destruct H as [[Ea Eb]|[_ H]]; [congruence|].
      rewrite H. split; split; congruence.
  - rewrite compare_processes_shape. apply group_then_name_zero.
Qed.

(** Where every ["icons"] entry holds a descriptor, the presence of the entry
    and the presence of a descriptor are the same thing. *)
Lemma has_icon_descriptor_entry (p : Process) :
  parameters p !! "icons" <> Some [] ->
  has_icon_descriptor p = has_key "icons" (parameters p).
Proof.
  unfold has_icon_descriptor, has_key. intros H.
  destruct (parameters p !! "icons") as [[|i l]|]; try congruence; reflexivity.
Qed.

(** ** Application comparator *)

Lemma sorted_running_first (l : list Application) :
  StronglySorted (precedes compare_applications) l ->
  exists running stopped,
    l = (running ++ stopped)%list
    /\ Forall (fun app => app_pid app <> 0%Z) running
    /\ Forall (fun app => app_pid app = 0%Z) stopped.
Proof.
  induction 1 as [|x l Hs IH Hx].
  - exists [], []. repeat split; constructor.
  - destruct IH as (running & stopped & -> & Hr & Hst).
    destruct (Z.eq_dec (app_pid x) 0) as [E|N].
    + exists [], (x :: running ++ stopped)%list.
      split; [reflexivity|]. split; [constructor|].
      constructor; [exact E|].
      eapply Forall_impl; [exact Hx|].
      intros y Hxy. unfold precedes in Hxy.
      rewrite compare_applications_shape in Hxy.
      destruct (Z.eq_dec (app_pid y) 0) as [Ey|Ny]; [exact Ey|exfalso].
      apply Z.eqb_eq in E. apply Z.eqb_neq in Ny.
      unfold group_then_name in Hxy. rewrite E, Ny in Hxy. simpl in Hxy. lia.
    + exists (x :: running), stopped.
      split; [reflexivity|]. split; [constructor; assumption|exact Hst].
Qed.

(** C4: [compare_applications] orders a record with [pid != 0] strictly
    before a record with [pid == 0], whatever the two names are; two records
    of the same running state are ordered by ascending name; and in the sorted
    list every running record stands before every record that is not
    running. *)
Theorem compare_applications_running_first : forall a b : Application,
  (app_pid a <> 0%Z -> app_pid b = 0%Z ->
   compare_applications a b = -1 /\ compare_applications b a = 1)
  /\ ((app_pid a = 0%Z <-> app_pid b = 0%Z) ->
      (compare_applications a b = -1 <-> String.compare (app_name a) (app_name b) = Lt)
      /\ (compare_applications a b = 0 <-> app_name a = app_name b)
      /\ (compare_applications a b = 1 <-> String.compare (app_name a) (app_name b) = Gt))
  /\ (forall l : list Application,
        exists running stopped,
          sorted compare_applications l = (running ++ stopped)%list
          /\ Forall (fun app => app_pid app <> 0%Z) running
          /\ Forall (fun app => app_pid app = 0%Z) stopped).
Proof.
  intros a b. split; [|split].
  - intros Ha Hb. apply Z.eqb_neq in Ha. apply Z.eqb_eq in Hb.
    rewrite !compare_applications_shape. unfold group_then_name.
    rewrite Ha, Hb. split; reflexivity.
  - intros Hg.
    assert (E : negb (app_pid a =? 0)%Z = negb (app_pid b =? 0)%Z).
    { destruct (Z.eqb_spec (app_pid a) 0), (Z.eqb_spec (app_pid b) 0);
        try reflexivity; tauto. }
    rewrite compare_applications_shape.
    pose proof (group_then_name_zero (negb (app_pid a =? 0)%Z)
                  (negb (app_pid b =? 0)%Z) (app_name a) (app_name b)) as Hz.
    destruct (group_then_name_cases (negb (app_pid a =? 0)%Z)
                (negb (app_pid b =? 0)%Z) (app_name a) (app_name b))
      as [[R H]|[[R [_ H]]|[R H]]]; rewrite R in *.
    + destruct H as [[Ea Eb]|[_ H]]; [congruence|]. rewrite H.
      split; [tauto|]. split; [|split; congruence].
      split; [lia|]. intros En. apply string_compare_eq in En. congruence.
    + rewrite H, string_compare_refl. split; [split; congruence|].
      split; [tauto|split; congruence].
    + destruct H as [[Ea Eb]|[_ H]]; [congruence|]. rewrite H.
      split; [split; congruence|]. split; [|tauto].
      split; [lia|]. intros En. apply string_compare_eq in En. congruence.
  - intros l. apply sorted_running_first, sorted_applications_sorted.
Qed.

(** ** The icon-width pre-scan *)

Lemma first_png_spec (icons : list IconDescriptor) :
  (first_png icons = 0 \/ first_png icons = 4)
  /\ (first_png icons = 4 <-> Exists (fun icon => format icon = "png") icons).
Proof.
  induction icons as [|icon rest [IHv IH]]; simpl.
  - split; [auto|]. split; [discriminate|]. intros H. inversion H.
  - destruct (String.eqb_spec (format icon) "png") as [E|N].
    + split; [auto|]. split; [|reflexivity]. intros _. left. exact E.
    + split; [exact IHv|]. rewrite IH. split.
      * intros H. right. exact H.
      * intros H. inversion H; subst; [contradiction|assumption].
Qed.

Lemma compute_icon_width_spec `{Item A} (item : A) :
  (compute_icon_width item = 0 \/ compute_icon_width item = 4)
  /\ (compute_icon_width item = 4 <-> carries_png item).
Proof.
  unfold compute_icon_width, carries_png.
  destruct (item_parameters item !! "icons") as [icons|]; simpl.
  - destruct (first_png_spec icons) as [Hv Hiff]. split; [exact Hv|].
    rewrite Hiff. split.
    + intros Hex. exists icons. split; [reflexivity|exact Hex].
    + intros (icons' & Heq & Hex). congruence.
  - split; [auto|]. split; [discriminate|]. intros (icons & Heq & _). discriminate Heq.
Qed.

Lemma fold_max_two_valued {A} (f : A -> Z) (l : list A) (a : Z) :
  a = 0 \/ a = 4 ->
  Forall (fun x => f x = 0 \/ f x = 4) l ->
  let r := fold_left (fun m y => Z.max m (f y)) l a in
  (r = 0 \/ r = 4) /\ (r = 4 <-> a = 4 \/ Exists (fun x => f x = 4) l).
Proof.
  revert a. induction l as [|x l IH]; simpl; intros a Ha Hl.
  - split; [exact Ha|]. split; [auto|]. intros [E|E]; [exact E|inversion E].
  - apply Forall_cons in Hl as [Hx Hl].
    destruct (IH (Z.max a (f x))) as [Hv Hiff]; [lia|exact Hl|].
    split; [exact Hv|]. rewrite Hiff. split.
    + intros [E|E]; [|right; right; exact E].
      destruct Ha as [-> | ->]; [|auto]. right. left. lia.
    + intros [E|E]; [left; lia|].
      inversion E; subst; [left; lia|right; assumption].
Qed.

(** The pre-scan yields one width for the whole listing: 4 when some record
    carries a [png] descriptor, 0 otherwise. *)
Lemma icon_width_of_spec `{Item A} (records : list A) :
  (icon_width_of records = 0 \/ icon_width_of records = 4)
  /\ (icon_width_of records = 4 <-> Exists carries_png records).
Proof.
  unfold icon_width_of, max_map.
  destruct records as [|x l].
  - split; [auto|]. split; [discriminate|]. intros E. inversion E.
  - assert (Hall : Forall (fun y => compute_icon_width y = 0 \/ compute_icon_width y = 4) l).
    { apply Forall_forall. intros y _. apply compute_icon_width_spec. }
    destruct (fold_max_two_valued compute_icon_width l (compute_icon_width x)
                (proj1 (compute_icon_width_spec x)) Hall) as [Hv Hiff].
    split; [exact Hv|]. rewrite Hiff. split.
    + intros [E|E].
      * left. apply compute_icon_width_spec. exact E.
      * right. eapply Exists_impl; [exact E|].
        intros y Hy. apply compute_icon_width_spec. exact Hy.
    + intros E. inversion E; subst.
      * left. apply compute_icon_width_spec. assumption.
      * right. eapply Exists_impl; [eassumption|].
        intros y Hy. apply compute_icon_width_spec. exact Hy.
Qed.

Ltac minimal_has_no_icons Hminimal Hcall Hex :=
  let p := fresh "p" in
  let Hin := fresh "Hin" in
  let icons := fresh "icons" in
  let Hp := fresh "Hp" in
  exfalso; apply Hminimal in Hcall;
  apply Exists_exists in Hex as (p & Hin & icons & Hp & _);
  rewrite Forall_forall in Hcall; cbn in Hp;
  rewrite (Hcall p Hin) in Hp; discriminate Hp.

(** In [_list_processes] the pre-scan agrees with the flags, for a backend
    that leaves the icons out of a ["minimal"] enumeration. *)
Lemma process_listing_icon_width (self : PSApplication) (device : Device)
    (processes : list Process) :
  (forall records, enumerate_processes device "minimal" = Listed records ->
                   Forall (fun p => parameters p !! "icons" = None) records) ->
  enumerate_processes device (process_scope self) = Listed processes ->
  icon_width_of processes = 4 <->
  _exclude_icons self = false /\ _output_format self = "text"
  /\ _terminal_type self = "iterm2" /\ Exists carries_png processes.
Proof.
  intros Hminimal Hcall.
  destruct (icon_width_of_spec processes) as [_ Hiff]. rewrite Hiff.
  unfold process_scope in Hcall.
  destruct (_exclude_icons self); simpl in Hcall.
  - split; [|intros [? _]; discriminate].
    intros Hex. minimal_has_no_icons Hminimal Hcall Hex.
  - destruct (String.eqb_spec (_output_format self) "text") as [Ef|Nf];
      simpl in Hcall.
    + destruct (String.eqb_spec (_terminal_type self) "iterm2") as [Et|Nt].
      * tauto.
      * split; [|tauto]. intros Hex. minimal_has_no_icons Hminimal Hcall Hex.
    + split; [|tauto]. intros Hex. minimal_has_no_icons Hminimal Hcall Hex.
Qed.

(** ** The exclude-icons flag *)

(** In [_list_applications] the pre-scan depends on the output format and on
    the terminal only, whatever [--exclude-icons] says. *)
Lemma application_listing_icon_width (self : PSApplication) (device : Device)
    (applications : list Application) :
  (forall records, enumerate_applications device "minimal" = Listed records ->
                   Forall (fun app => app_parameters app !! "icons" = None) records) ->
  enumerate_applications device (application_scope self) = Listed applications ->
  icon_width_of applications = 4 <->
  _output_format self = "text" /\ _terminal_type self = "iterm2"
  /\ Exists carries_png applications.
Proof.
  intros Hminimal Hcall.
  destruct (icon_width_of_spec applications) as [_ Hiff]. rewrite Hiff.
  unfold application_scope in Hcall.
  destruct (String.eqb_spec (_output_format self) "text") as [Ef|Nf]; simpl in Hcall.
  - destruct (String.eqb_spec (_terminal_type self) "iterm2") as [Et|Nt].
    + tauto.
    + split; [|tauto]. intros Hex. minimal_has_no_icons Hminimal Hcall Hex.
  - split; [|tauto]. intros Hex. minimal_has_no_icons Hminimal Hcall Hex.
Qed.

(** C1, at the failing input: with [--exclude-icons] set, on iTerm2,
    [_list_applications] still asks the backend for the ["full"] scope, the
    pre-scan finds the [png] icon, the icon width is 4 and the row is printed
    with the inline image. [_list_processes], with the same flags, asks for
    the ["minimal"] scope and prints no icon. *)
Theorem list_applications_ignores_exclude_icons :
  application_scope ps_applications_exclude_icons = "full"
  /\ icon_width_of (listed_applications ps_applications_exclude_icons
                      [safari_application "full"]) = 4
  /\ _start ps_applications_exclude_icons =
     ([Print "PID  Name        Identifier      ";
       Print "---  ----------  ----------------";
       Print ("501  " ++ _render_icon ps_applications_exclude_icons png_icon
              ++ " Safari  com.apple.Safari")%string;
       Exit 0], Returned tt)
  /\ process_scope ps_processes_exclude_icons = "minimal"
  /\ _start ps_processes_exclude_icons =
     ([Print "PID  Name"; Print "---  ------"; Print "501  Safari"; Exit 0],
      Returned tt).
Proof. vm_compute. repeat split; reflexivity. Qed.

(** ** Rows and icons *)

(** C10: with a nonzero icon width, a row whose record has an ["icons"]
    entry shows the first descriptor of the entry, whatever its format: the
    row holds the inline-image escape sequence with the icon size and the
    base64 text of the image bytes of that descriptor. An empty entry makes
    the row raise [IndexError]; only a record without the entry gets the blank
    placeholder. This holds for the rows of both listings. *)
Theorem row_renders_first_icon (self : PSApplication)
    (pid_width icon_width name_width identifier_width : Z) :
  icon_width <> 0%Z ->
  let inline_image (icon : IconDescriptor) :=
    String ESC "]1337;File=inline=1;width=" ++ Py.str_of_int (_icon_size self)
    ++ "px;height=" ++ Py.str_of_int (_icon_size self)
    ++ "px;:" ++ Base64.b64encode (image icon) ++ String BEL EmptyString in
  (forall (p : Process) icon rest,
      parameters p !! "icons" = Some (icon :: rest) ->
      process_row self pid_width icon_width name_width p =
      Returned (Py.rjust pid_width (Py.str_of_int (pid p)) ++ "  "
                ++ inline_image icon ++ " "
                ++ Py.ljust (name_width - icon_width) (name p)))
  /\ (forall (app : Application) icon rest,
      app_parameters app !! "icons" = Some (icon :: rest) ->
      application_row self pid_width icon_width name_width identifier_width app =
      Returned (Py.rjust pid_width
                  (if (app_pid app =? 0)%Z then "-" else Py.str_of_int (app_pid app))
                ++ "  "
                ++ (inline_image icon ++ " "
                    ++ Py.ljust (name_width - icon_width) (app_name app))
                ++ "  " ++ Py.ljust identifier_width (app_identifier app)))
  /\ (forall p : Process,
      parameters p !! "icons" = Some [] ->
      process_row self pid_width icon_width name_width p = Raised IndexError)
  /\ (forall app : Application,
      app_parameters app !! "icons" = Some [] ->
      application_row self pid_width icon_width name_width identifier_width app =
      Raised IndexError)
  /\ (forall p : Process,
      parameters p !! "icons" = None ->
      process_row self pid_width icon_width name_width p =
      Returned (Py.rjust pid_width (Py.str_of_int (pid p)) ++ "  "
                ++ "   " ++ " " ++ Py.ljust (name_width - icon_width) (name p))).
Proof.
  intros Hw inline_image. apply Z.eqb_neq in Hw.
  repeat split.
  - intros p icon rest Hp. unfold process_row, name_cell. cbn.
    rewrite Hw, Hp. reflexivity.
  - intros app icon rest Hp. unfold application_row, name_cell. cbn.
    rewrite Hw, Hp. reflexivity.
  - intros p Hp. unfold process_row, name_cell. cbn. rewrite Hw, Hp. reflexivity.
  - intros app Hp. unfold application_row, name_cell. cbn. rewrite Hw, Hp. reflexivity.
  - intros p Hp. unfold process_row, name_cell. cbn. rewrite Hw, Hp. reflexivity.
Qed.

(** The row of a record whose first descriptor is an [rgba] image of the
    four bytes ff 00 00 ff, at icon size 31: the escape sequence carries
    [/wAA/w==], the base64 text of these bytes, although a [png] descriptor
    follows. *)
Lemma row_renders_first_icon_witness :
  process_row ps_processes_exclude_icons 3 4 5 process_with_rgba_icon =
    Returned ("  7  "
              ++ String ESC "]1337;File=inline=1;width=31px;height=31px;:/wAA/w=="
              ++ String BEL " x")
  /\ process_row ps_processes_exclude_icons 3 4 5 process_with_empty_icons =
     Raised IndexError.
Proof.
  pose proof (row_renders_first_icon ps_processes_exclude_icons 3 4 5 0
                ltac:(discriminate)) as (Hfirst & _ & Hempty & _).
  split.
  - refine (eq_trans (Hfirst process_with_rgba_icon rgba_icon [png_icon] eq_refl) _).
    vm_compute. reflexivity.
  - exact (Hempty process_with_empty_icons eq_refl).
Defined.

(** ** Exit codes *)

Lemma print_rows_prints {A} (row : A -> outcome string) (items : list A) :
  Forall is_print (fst (print_rows row items)).
Proof.
  induction items as [|item rest IH]; simpl; [constructor|].
  unfold bind, lift, emit. destruct (row item) as [line| |]; simpl; try constructor.
  destruct (print_rows row rest) as [evs r]. simpl in *.
  constructor; [exact I|exact IH].
Qed.

Lemma print_rows_no_exit {A} (row : A -> outcome string) (items : list A) :
  Forall not_exit (fst (print_rows row items)).
Proof.
  eapply Forall_impl; [apply print_rows_prints|].
  intros [] H; simpl in *; tauto.
Qed.

(** A body that emits no [Exit], followed by [self._exit(0)]. *)
Lemma body_then_exit0 (body : Listing unit) (evs : list event) :
  Forall not_exit (fst body) ->
  (body ;;; emit (Exit 0)) = (evs, Returned tt) ->
  exists before, evs = (before ++ [Exit 0])%list /\ Forall not_exit before.
Proof.
  destruct body as [before [[]| |]]; simpl; intros Hb Heq; try discriminate.
  injection Heq as <-. exists before. split; [reflexivity|exact Hb].
Qed.

Lemma header_rows_no_exit {A} (h1 h2 : string) (row : A -> outcome string)
    (items : list A) :
  Forall not_exit (fst (emit (Print h1) ;;; emit (Print h2) ;;; print_rows row items)).
Proof.
  pose proof (print_rows_no_exit row items) as H.
  unfold bind, emit. simpl. destruct (print_rows row items) as [evs r]. simpl in *.
  repeat constructor. exact H.
Qed.

(** C9: when the enumeration call raises, the listing reports a status
    message and exits with code 1, and prints nothing else; a listing that
    completes, the empty-list diagnostics included, ends with exit code 0 and
    calls [_exit] only once. *)
Theorem enumeration_failure_exits_1 : forall self : PSApplication,
  (forall msg,
      call_backend self (fun d => enumerate_processes d (process_scope self)) = Failed msg ->
      _list_processes self =
      ([UpdateStatus ("Failed to enumerate processes: " ++ msg); Exit 1], Returned tt))
  /\ (forall msg,
      call_backend self (fun d => enumerate_applications d (application_scope self))
      = Failed msg ->
      _list_applications self =
      ([UpdateStatus ("Failed to enumerate applications: " ++ msg); Exit 1], Returned tt))
  /\ (forall records evs,
      call_backend self (fun d => enumerate_processes d (process_scope self))
      = Listed records ->
      _list_processes self = (evs, Returned tt) ->
      exists before, evs = (before ++ [Exit 0])%list /\ Forall not_exit before)
  /\ (forall records evs,
      call_backend self (fun d => enumerate_applications d (application_scope self))
      = Listed records ->
      _list_applications self = (evs, Returned tt) ->
      exists before, evs = (before ++ [Exit 0])%list /\ Forall not_exit before)
  /\ (forall records,
      call_backend self (fun d => enumerate_processes d (process_scope self))
      = Listed records ->
      _output_format self = "text" -> records = [] ->
      _list_processes self = ([Log "error" "No running processes."; Exit 0], Returned tt))
  /\ (forall records,
      call_backend self (fun d => enumerate_applications d (application_scope self))
      = Listed records ->
      _output_format self = "text" -> listed_applications self records = [] ->
      _list_applications self =
      ([Log "error" (if _include_all_applications self
                     then "No installed applications."
                     else "No running applications."); Exit 0], Returned tt)).
Proof.
  intros self. repeat split.
  - intros msg H. unfold _list_processes. cbv zeta. rewrite H. reflexivity.
  - intros msg H. unfold _list_applications. cbv zeta. rewrite H. reflexivity.
  - intros records evs H. unfold _list_processes. cbv zeta. rewrite H.
    apply body_then_exit0.
    destruct (String.eqb (_output_format self) "text").
    + destruct (0 <? Z.of_nat (length records))%Z.
      * apply header_rows_no_exit.
      * repeat constructor.
    + destruct (String.eqb (_output_format self) "json"); repeat constructor.
  - intros records evs H. unfold _list_applications. cbv zeta. rewrite H.
    apply body_then_exit0.
    destruct (String.eqb (_output_format self) "text").
    + destruct (0 <? Z.of_nat (length (listed_applications self records)))%Z.
      * apply header_rows_no_exit.
      * destruct (_include_all_applications self); repeat constructor.
    + destruct (String.eqb (_output_format self) "json"); repeat constructor.
  - intros records H Hf ->. unfold _list_processes. cbv zeta. rewrite H, Hf.
    reflexivity.
  - intros records H Hf He. unfold _list_applications. cbv zeta.
    rewrite H, Hf, He. destruct (_include_all_applications self); reflexivity.
Qed.

(** ** JSON output of the application listing *)

(** C8, as stated, fails: in JSON mode without [--installed], the backend
    returns the two records and the output holds one entry only; the record
    with pid 0 is dropped before the entries are built. *)
Lemma list_applications_json_counterexample :
  _output_format (ps_json false) = "json"
  /\ call_backend (ps_json false)
       (fun d => enumerate_applications d (application_scope (ps_json false)))
     = Listed [foo; bar]
  /\ _list_applications (ps_json false)
     = ([Print (Json.dumps (Json.List [bar_entry])); Exit 0], Returned tt)
  /\ Json.List [bar_entry] <> Json.List [bar_entry; foo_entry].
Proof.
  split; [reflexivity|]. split; [reflexivity|]. split; [vm_compute; reflexivity|].
  discriminate.
Qed.

Lemma listed_applications_entries (applications : list Application) :
  (if (0 <? Z.of_nat (length applications))%Z
   then map application_entry (sorted compare_applications applications)
   else [])
  = map application_entry (sorted compare_applications applications).
Proof. destruct applications; reflexivity. Qed.

(** C8, amended: in JSON mode the application listing prints one entry per
    listed record, where the listed records are all the records with
    [--installed] and the records with [pid != 0] without it; the entries
    follow the sorted order; each has the keys [pid], [name], [identifier] in
    this order, with [pid] null exactly when the pid of the record is 0 and the
    pid otherwise. With [--installed], the two records Foo (pid 0) and Bar
    (pid 42) give the array of the Bar entry followed by the Foo entry, with a
    null pid. *)
Theorem list_applications_json :
  (forall (self : PSApplication) (applications : list Application),
      _output_format self = "json" ->
      call_backend self (fun d => enumerate_applications d (application_scope self))
      = Listed applications ->
      exists ordered,
        _list_applications self
        = ([Print (Json.dumps (Json.List (map application_entry ordered))); Exit 0],
           Returned tt)
        /\ Permutation ordered
             (if _include_all_applications self then applications
              else List.filter (fun app => negb (app_pid app =? 0)%Z) applications)
        /\ StronglySorted (precedes compare_applications) ordered
        /\ Forall (fun app =>
             exists p,
               application_entry app
               = Json.Dict [("pid", p); ("name", Json.Str (app_name app));
                            ("identifier", Json.Str (app_identifier app))]
               /\ (p = Json.Null <-> app_pid app = 0%Z)
               /\ (app_pid app <> 0%Z -> p = Json.Int (app_pid app))) ordered)
  /\ _list_applications (ps_json true)
     = ([Print (Json.dumps (Json.List [bar_entry; foo_entry])); Exit 0], Returned tt).
Proof.
  split; [|vm_compute; reflexivity].
  intros self applications Hf Hcall.
  exists (sorted compare_applications (listed_applications self applications)).
  split; [|split; [|split]].
  - unfold _list_applications. cbv zeta. rewrite Hcall, Hf.
    change (String.eqb "json" "text") with false.
    change (String.eqb "json" "json") with true. cbv iota.
    rewrite listed_applications_entries. reflexivity.
  - eapply perm_trans; [apply sorted_perm|].
    unfold listed_applications.
    destruct (_include_all_applications self); apply Permutation_refl.
  - apply sorted_applications_sorted.
  - apply Forall_forall. intros app _. unfold application_entry.
    destruct (Z.eqb_spec (app_pid app) 0) as [E|N]; eexists; (split; [reflexivity|]).
    + split; [tauto|]. intros H. contradiction.
    + split; [split; [discriminate|contradiction]|reflexivity].
Qed.

Lemma list_applications_json_witness :
  exists ordered,
    _list_applications (ps_json true)
    = ([Print (Json.dumps (Json.List (map application_entry ordered))); Exit 0],
       Returned tt)
    /\ Permutation ordered [foo; bar].
Proof.
  destruct (proj1 list_applications_json (ps_json true) [foo; bar] eq_refl eq_refl)
    as (ordered & Hout & Hperm & _).
  exists ordered. split; [exact Hout|exact Hperm].
Defined.

(** ** Terminal negotiation *)

Lemma read_terminal_response_run (terminator : ascii) (t : terminal) :
  _read_terminal_response terminator t =
  (fst (read_response terminator (input t)),
   with_input t (snd (read_response terminator (input t)))).
Proof.
  destruct t as [a i o b]. unfold _read_terminal_response, tbind, stdin_read1, with_input.
  simpl. destruct i as [|[c1|] [|[c2|] i]]; simpl; try reflexivity.
  destruct (read_until terminator i EmptyString); reflexivity.
Qed.

Lemma keeps_tbind {A B} (m : Term A) (f : A -> Term B) :
  keeps_attrs m -> (forall a, keeps_attrs (f a)) -> keeps_attrs (tbind m f).
Proof.
  intros Hm Hf t. unfold tbind. specialize (Hm t).
  destruct (m t) as [[a|e|] t']; simpl in *; [|assumption|assumption].
  rewrite Hf. exact Hm.
Qed.

Lemma keeps_tret {A} (a : A) : keeps_attrs (tret a).
Proof. intros t. reflexivity. Qed.

Lemma keeps_tlift {A} (o : outcome A) : keeps_attrs (tlift o).
Proof. intros t. reflexivity. Qed.

Lemma keeps_stdout_call (ev : output_event) : keeps_attrs (stdout_call ev).
Proof. intros t. unfold stdout_call. destruct (out_budget t) as [[|k]|]; reflexivity. Qed.

Lemma keeps_read_terminal_response (terminator : ascii) :
  keeps_attrs (_read_terminal_response terminator).
Proof. intros t. rewrite read_terminal_response_run. reflexivity. Qed.

Ltac keeps_step :=
  first
    [ apply keeps_tret
    | apply keeps_tlift
    | apply keeps_stdout_call
    | apply keeps_read_terminal_response
    | apply keeps_tbind; [|intros ?]
    | match goal with |- keeps_attrs (if ?b then _ else _) => destruct b end ].

Ltac keeps_all := unfold stdout_write, stdout_flush; repeat keeps_step.

Section NegotiationProperties.
Variable setraw_attributes : attributes -> attributes.
Variables ICANON ECHO : Z.

Lemma negotiate_outcome (t : terminal) (r1 r2 : string)
    (rest1 rest2 : list input_event) :
  out_budget t = None ->
  read_response "n" (input t) = (Returned r1, rest1) ->
  read_response "n" rest1 = (Returned r2, rest2) ->
  r1 <> "0" -> r1 <> "3" ->
  fst (negotiate setraw_attributes ICANON ECHO 0 t) = after_first_response r1 rest2.
Proof.
  intros Hb H1 H2 N0 N3. destruct t as [a i o b]. simpl in Hb, H1. subst b.
  unfold negotiate, tty_setraw.
  unfold tbind at 1. unfold tbind at 1. simpl.
  unfold tbind at 1. simpl.
  unfold tbind at 1. simpl.
  unfold tbind at 1. simpl.
  unfold tbind at 1. simpl.
  unfold tbind at 1. simpl.
  unfold tbind at 1. rewrite read_terminal_response_run. simpl.
  rewrite H1. simpl.
  apply String.eqb_neq in N0, N3. rewrite N0, N3. simpl.
  unfold tbind at 1. rewrite read_terminal_response_run. simpl.
  rewrite H2. simpl.
  unfold after_first_response.
  destruct (Py.startswith r1 "ITERM2 "); [|reflexivity].
  unfold tbind at 1, tlift at 1.
  destruct (version_tokens_of r1) as [tokens|e|]; simpl; try reflexivity.
  destruct (2 <=? Z.of_nat (length tokens))%Z; [|reflexivity].
  unfold tbind at 1, tlift at 1.
  destruct (obind (Py.index tokens 0) Py.int) as [major|e|]; simpl; try reflexivity.
  destruct (3 <=? major)%Z; [|reflexivity].
  unfold tbind at 1. simpl. unfold tbind at 1. simpl.
  unfold tbind at 1. rewrite read_terminal_response_run. simpl.
  unfold geometry.
  destruct (read_response "t" rest2) as [[pixels|e|] rest3]; simpl; try reflexivity.
  unfold tbind at 1, tlift at 1.
  destruct (geometry_field pixels) as [hp|e|]; simpl; try reflexivity.
  unfold tbind at 1. simpl. unfold tbind at 1. simpl.
  unfold tbind at 1. rewrite read_terminal_response_run. simpl.
  destruct (read_response "t" rest3) as [[cells|e|] rest4]; simpl; try reflexivity.
  unfold tbind at 1, tlift at 1.
  destruct (geometry_field cells) as [hc|e|]; simpl; try reflexivity.
  unfold tbind at 1, tlift at 1.
  destruct (icon_size_of hp hc) as [size|e|]; reflexivity.
Qed.

(** Once the raw mode is set, no step of the negotiation touches the
    attributes. *)
Lemma negotiate_attrs (t : terminal) :
  attrs (snd (negotiate setraw_attributes ICANON ECHO 0 t))
  = clear_icanon_echo ICANON ECHO (setraw_attributes (attrs t)).
Proof.
  unfold negotiate, tty_setraw.
  unfold tbind at 1. unfold tbind at 1. simpl.
  unfold tbind at 1. simpl. unfold tbind at 1. simpl.
  match goal with
  | |- attrs (snd (?m ?t')) = _ =>
      assert (Hkeeps : keeps_attrs m) by keeps_all; exact (Hkeeps t')
  end.
Qed.

(** The [finally] clause always returns, so the outcome of the [try]
    statement is the outcome of its body. *)
Lemma detect_outcome (self : PSApplication) (t : terminal) :
  _have_terminal self = true -> _plain_terminal self = false ->
  platform_system self = "Darwin" ->
  fst (_detect_terminal setraw_attributes ICANON ECHO self t)
  = fst (negotiate setraw_attributes ICANON ECHO 0 t).
Proof.
  intros H1 H2 H3. unfold _detect_terminal. rewrite H1, H2, H3. simpl.
  unfold tbind, tcgetattr, try_finally.
  destruct (negotiate setraw_attributes ICANON ECHO 0 t) as [[r|e|] t']; reflexivity.
Qed.

(** C7: without an interactive terminal, or with image output turned off,
    or on a platform other than macOS, [_detect_terminal] returns
    [("simple", 0)] at once: nothing is written and the mode of the terminal
    is not changed. *)
Theorem detect_terminal_without_terminal (self : PSApplication) (t : terminal) :
  _have_terminal self = false \/ _plain_terminal self = true
  \/ platform_system self <> "Darwin" ->
  _detect_terminal setraw_attributes ICANON ECHO self t = (Returned ("simple", 0%Z), t).
Proof.
  intros H. unfold _detect_terminal.
  destruct H as [-> | [-> | H]]; simpl.
  - reflexivity.
  - rewrite orb_true_r. reflexivity.
  - apply String.eqb_neq in H. rewrite H. simpl. rewrite orb_true_r. reflexivity.
Qed.

(** C6: on every path on which [_detect_terminal] returns or raises, the
    attributes of the terminal are those it had on entry; while the
    negotiation waits for an answer that does not come, the terminal is in
    the raw mode the negotiation has set. *)
Theorem detect_terminal_restores_attributes (self : PSApplication) (t : terminal) :
  (fst (_detect_terminal setraw_attributes ICANON ECHO self t) <> Blocked ->
   attrs (snd (_detect_terminal setraw_attributes ICANON ECHO self t)) = attrs t)
  /\ (fst (_detect_terminal setraw_attributes ICANON ECHO self t) = Blocked ->
      attrs (snd (_detect_terminal setraw_attributes ICANON ECHO self t))
      = clear_icanon_echo ICANON ECHO (setraw_attributes (attrs t))).
Proof.
  unfold _detect_terminal.
  destruct (negb (_have_terminal self) || _plain_terminal self
            || negb (String.eqb (platform_system self) "Darwin")).
  - simpl. split; [reflexivity|discriminate].
  - unfold tbind, tcgetattr, try_finally, tcsetattr. cbv beta iota.
    pose proof (negotiate_attrs t) as Hraw.
    destruct (negotiate setraw_attributes ICANON ECHO 0 t) as [[r|e|] t']; simpl in *.
    + split; [reflexivity|discriminate].
    + split; [reflexivity|discriminate].
    + split; [congruence|]. intros _. exact Hraw.
Qed.

End NegotiationProperties.

(** ** The version gate *)

Lemma append_cons (c : ascii) (s v : string) : String c s ++ v = String c (s ++ v).
Proof. reflexivity. Qed.

Lemma startswith_iff (s p : string) :
  Py.startswith s p = true <-> exists v, s = p ++ v.
Proof.
  unfold Py.startswith. revert s.
  induction p as [|a p IH]; intros s; simpl.
  - destruct s; (split; [intros _; eexists; reflexivity|reflexivity]).
  - destruct s as [|b s]; simpl.
    + split; [discriminate|]. intros [v Hv]. discriminate Hv.
    + destruct (ascii_dec a b) as [->|N].
      * rewrite IH. split; intros [v Hv]; exists v; rewrite append_cons in *; congruence.
      * split; [discriminate|]. intros [v Hv]. rewrite append_cons in Hv. congruence.
Qed.

Lemma iterm2_prefix_inj (v w : string) : "ITERM2 " ++ v = "ITERM2 " ++ w -> v = w.
Proof. rewrite !append_cons. intros H. injection H as H. exact H. Qed.

Lemma version_tokens_of_prefix (v : string) :
  version_tokens_of ("ITERM2 " ++ v) = Returned (Py.splitn v "." 2).
Proof. destruct v; reflexivity. Qed.

Lemma after_first_response_prefix (v : string) (pending : list input_event) :
  after_first_response ("ITERM2 " ++ v) pending =
  if (2 <=? Z.of_nat (length (Py.splitn v "." 2)))%Z then
    match Py.parse_int (major_of v) with
    | Some major =>
        if (3 <=? major)%Z
        then obind (geometry pending) (fun icon_size => Returned ("iterm2", icon_size))
        else Returned ("simple", 0%Z)
    | None => Raised ValueError
    end
  else Returned ("simple", 0%Z).
Proof.
  unfold after_first_response, major_of.
  replace (Py.startswith ("ITERM2 " ++ v) "ITERM2 ") with true
    by (symmetry; apply startswith_iff; eexists; reflexivity).
  rewrite version_tokens_of_prefix. cbn [obind].
  destruct (Py.splitn v "." 2) as [|x l]; [reflexivity|].
  destruct (2 <=? Z.of_nat (length (x :: l)))%Z; [|reflexivity].
  cbn [Py.index nth_error obind hd]. unfold Py.int.
  destruct (Py.parse_int x); reflexivity.
Qed.

Lemma after_first_response_other (r1 : string) (pending : list input_event) :
  Py.startswith r1 "ITERM2 " = false ->
  after_first_response r1 pending = Returned ("simple", 0%Z).
Proof. intros H. unfold after_first_response. rewrite H. reflexivity. Qed.

Ltac same_version :=
  repeat match goal with
         | H : "ITERM2 " ++ _ = "ITERM2 " ++ _ |- _ =>
             apply iterm2_prefix_inj in H; subst
         end.

Section VersionGate.
Variable setraw_attributes : attributes -> attributes.
Variables ICANON ECHO : Z.

(** C2, amended: when the first response [r1] is neither ["0"] nor ["3"]
    and a second response follows, the negotiation returns
    [("iterm2", size)] exactly when [r1] is ["ITERM2 "] followed by a
    version with at least two dot-separated components whose first
    component is an integer of at least 3, and the geometry probes yield
    [size]; it returns [("simple", 0)] exactly when [r1] lacks the prefix, or
    the version has fewer than two components, or the major version is an
    integer below 3; and it raises [ValueError] when the version has two
    components and the first is not an integer. *)
Theorem detect_terminal_version_gate (self : PSApplication) (t : terminal)
    (r1 r2 : string) (rest1 rest2 : list input_event) :
  _have_terminal self = true -> _plain_terminal self = false ->
  platform_system self = "Darwin" ->
  out_budget t = None ->
  read_response "n" (input t) = (Returned r1, rest1) ->
  read_response "n" rest1 = (Returned r2, rest2) ->
  r1 <> "0" -> r1 <> "3" ->
  (forall icon_size,
      fst (_detect_terminal setraw_attributes ICANON ECHO self t)
      = Returned ("iterm2", icon_size) <->
      exists v major,
        r1 = "ITERM2 " ++ v /\ (2 <= length (Py.splitn v "." 2))%nat
        /\ Py.parse_int (major_of v) = Some major /\ (3 <= major)%Z
        /\ geometry rest2 = Returned icon_size)
  /\ (fst (_detect_terminal setraw_attributes ICANON ECHO self t)
      = Returned ("simple", 0%Z) <->
      Py.startswith r1 "ITERM2 " = false
      \/ exists v, r1 = "ITERM2 " ++ v
                   /\ ((length (Py.splitn v "." 2) < 2)%nat
                       \/ exists major, Py.parse_int (major_of v) = Some major
                                        /\ (major < 3)%Z))
  /\ (forall v, r1 = "ITERM2 " ++ v -> (2 <= length (Py.splitn v "." 2))%nat ->
                Py.parse_int (major_of v) = None ->
                fst (_detect_terminal setraw_attributes ICANON ECHO self t)
                = Raised ValueError).
Proof.
  intros G1 G2 G3 Hb H1 H2 N0 N3.
  rewrite (detect_outcome _ _ _ self t G1 G2 G3).
  rewrite (negotiate_outcome _ _ _ t r1 r2 rest1 rest2 Hb H1 H2 N0 N3).
  destruct (Py.startswith r1 "ITERM2 ") eqn:Hp.
  - apply startswith_iff in Hp as [v ->].
    rewrite after_first_response_prefix.
    destruct (Z.leb_spec 2 (Z.of_nat (length (Py.splitn v "." 2)))) as [Hl|Hl].
    + destruct (Py.parse_int (major_of v)) as [major|] eqn:Hm.
      * destruct (Z.leb_spec 3 major) as [H3|H3].
        -- split; [|split].
           ++ intros size. split.
              ** intros Hr. exists v, major. repeat split; [lia|assumption|assumption|].
                 destruct (geometry rest2); simpl in Hr; congruence.
              ** intros (v' & major' & Hv & _ & _ & _ & Hg). rewrite Hg. reflexivity.
           ++ split.
              ** intros Hr. destruct (geometry rest2); simpl in Hr; discriminate Hr.
              ** intros [Hf|(v' & Hv & [Hlen|(major' & Hm' & Hlt)])];
                   [discriminate Hf| |]; same_version; [lia|].
                 rewrite Hm in Hm'. injection Hm' as <-. lia.
           ++ intros v' Hv _ Hnone. same_version. congruence.
        -- split; [|split].
           ++ intros size. split; [discriminate|].
              intros (v' & major' & Hv & _ & Hm' & Hge & _). same_version.
              rewrite Hm in Hm'. injection Hm' as <-. lia.
           ++ split; [|reflexivity]. intros _. right. exists v.
              split; [reflexivity|]. right. exists major. split; [exact Hm|lia].
           ++ intros v' Hv _ Hnone. same_version. congruence.
      * split; [|split].
        -- intros size. split; [discriminate|].
           intros (v' & major' & Hv & _ & Hm' & _). same_version. congruence.
        -- split; [discriminate|].
           intros [Hf|(v' & Hv & [Hlen|(major' & Hm' & _)])];
             [discriminate Hf| |]; same_version; [lia|congruence].
        -- intros _ _ _ _. reflexivity.
    + split; [|split].
      * intros size. split; [discriminate|].
        intros (v' & major' & Hv & Hlen & _). same_version. lia.
      * split; [|reflexivity]. intros _. right. exists v.
        split; [reflexivity|]. left. lia.
      * intros v' Hv Hlen _. same_version. lia.
  - rewrite (after_first_response_other r1 rest2 Hp).
    assert (Hno : forall v, r1 <> "ITERM2 " ++ v).
    { intros v ->. rewrite (proj2 (startswith_iff _ _)) in Hp; [discriminate|].
      eexists. reflexivity. }
    split; [|split].
    + intros size. split; [discriminate|].
      intros (v & _ & Hv & _). exfalso. exact (Hno v Hv).
    + split; [|reflexivity]. intros _. left. reflexivity.
    + intros v Hv. exfalso. exact (Hno v Hv).
Qed.

End VersionGate.

(** C2, as stated, fails in two ways. The response ["ITERM2 3"] has the
    prefix and its major version is the integer 3, yet the negotiation returns
    [("simple", 0)]: the version must have two components. The response
    ["ITERM2 beta.1"] is not an iTerm2 of version 3 or later, yet the
    negotiation does not return [("simple", 0)]: it raises [ValueError]. *)
Lemma detect_terminal_version_counterexample :
  (Py.startswith "ITERM2 3" "ITERM2 " = true
   /\ claimed_major "ITERM2 3" = Some 3%Z
   /\ fst (Darwin.detect (Darwin.mac true false) iterm2_version_3)
      = Returned ("simple", 0%Z))
  /\ (claimed_major "ITERM2 beta.1" = None
      /\ fst (Darwin.detect (Darwin.mac true false) iterm2_version_beta)
         = Raised ValueError).
Proof. vm_compute. repeat split; reflexivity. Qed.

Lemma detect_terminal_version_gate_witness :
  fst (Darwin.detect (Darwin.mac true false) iterm2_340_20) = Returned ("iterm2", 31%Z).
Proof.
  apply (proj1 (detect_terminal_version_gate
                  Darwin.setraw_attributes Darwin.ICANON Darwin.ECHO
                  (Darwin.mac true false) iterm2_340_20 "ITERM2 3.4.19" "0"
                  (Darwin.chars (Darwin.reply "0" "n" ++ Darwin.reply "4;340;600" "t"
                                 ++ Darwin.reply "8;20;80" "t"))
                  (Darwin.chars (Darwin.reply "4;340;600" "t"
                                 ++ Darwin.reply "8;20;80" "t"))
                  eq_refl eq_refl eq_refl eq_refl eq_refl eq_refl
                  ltac:(discriminate) ltac:(discriminate)) 31%Z).
  exists "3.4.19", 3%Z.
  repeat split; first [lia | vm_compute; reflexivity | vm_compute; lia].
Defined.

Lemma detect_terminal_without_terminal_witness :
  Darwin.detect (Darwin.mac false false) iterm2_340_20
  = (Returned ("simple", 0%Z), iterm2_340_20).
Proof.
  apply (detect_terminal_without_terminal
           Darwin.setraw_attributes Darwin.ICANON Darwin.ECHO
           (Darwin.mac false false) iterm2_340_20).
  left. reflexivity.
Defined.

Lemma detect_terminal_restores_attributes_witness :
  (fst (Darwin.detect (Darwin.mac true false) iterm2_read_failure) = Raised OSError
   /\ attrs (snd (Darwin.detect (Darwin.mac true false) iterm2_read_failure))
      = Darwin.cooked)
  /\ (fst (Darwin.detect (Darwin.mac true false) iterm2_no_height) = Raised IndexError
      /\ attrs (snd (Darwin.detect (Darwin.mac true false) iterm2_no_height))
         = Darwin.cooked)
  /\ (fst (Darwin.detect (Darwin.mac true false) iterm2_write_failure) = Raised OSError
      /\ attrs (snd (Darwin.detect (Darwin.mac true false) iterm2_write_failure))
         = Darwin.cooked)
  /\ attrs (snd (Darwin.detect (Darwin.mac true false) iterm2_340_20)) = Darwin.cooked
  /\ attrs (snd (Darwin.detect (Darwin.mac true false) iterm2_version_3)) = Darwin.cooked.
Proof.
  split; [split; [vm_compute; reflexivity|]
         |split; [split; [vm_compute; reflexivity|]
                 |split; [split; [vm_compute; reflexivity|]|split]]].
  - apply (proj1 (detect_terminal_restores_attributes
                    Darwin.setraw_attributes Darwin.ICANON Darwin.ECHO
                    (Darwin.mac true false) iterm2_read_failure)).
    vm_compute. discriminate.
  - apply (proj1 (detect_terminal_restores_attributes
                    Darwin.setraw_attributes Darwin.ICANON Darwin.ECHO
                    (Darwin.mac true false) iterm2_no_height)).
    vm_compute. discriminate.
  - apply (proj1 (detect_terminal_restores_attributes
                    Darwin.setraw_attributes Darwin.ICANON Darwin.ECHO
                    (Darwin.mac true false) iterm2_write_failure)).
    vm_compute. discriminate.
  - apply (proj1 (detect_terminal_restores_attributes
                    Darwin.setraw_attributes Darwin.ICANON Darwin.ECHO
                    (Darwin.mac true false) iterm2_340_20)).
    vm_compute. discriminate.
  - apply (proj1 (detect_terminal_restores_attributes
                    Darwin.setraw_attributes Darwin.ICANON Darwin.ECHO
                    (Darwin.mac true false) iterm2_version_3)).
    vm_compute. discriminate.
Defined.

(** ** The icon size *)

(** C5, as stated, fails: for a window of 800 pixels and 24 rows the exact
    product is 59, and its ceiling is 59; the negotiation returns 60, because
    the quotient 800/24 is rounded to a double before it is multiplied. *)
Lemma icon_size_rounding_counterexample :
  spec_icon_size 800 24 = 59%Z
  /\ fst (Darwin.detect (Darwin.mac true false) iterm2_800_24)
     = Returned ("iterm2", 60%Z).
Proof. vm_compute. split; reflexivity. Qed.

(** [math.ceil] on a finite double is the ceiling of its value
    [m * 2^e]. *)
Lemma ceil_finite_spec (s : bool) (m : positive) (e : Z) (n : Z) :
  (e < 0)%Z ->
  Float.ceil (S754_finite s m e) = Returned n ->
  let v := if s then Zneg m else Zpos m in
  ((n - 1) * 2 ^ (- e) < v <= n * 2 ^ (- e))%Z.
Proof.
  intros He Hc v. unfold Float.ceil in Hc. fold v in Hc.
  destruct (0 <=? e)%Z eqn:E; [apply Z.leb_le in E; lia|].
  injection Hc as <-.
  assert (Hpos : (0 < 2 ^ (- e))%Z) by (apply Z.pow_pos_nonneg; lia).
  pose proof (Z.div_mod (- v) (2 ^ (- e)) ltac:(lia)) as Hdm.
  pose proof (Z.mod_pos_bound (- v) (2 ^ (- e)) Hpos) as Hmod.
  nia.
Qed.

Section IconSize.
Variable setraw_attributes : attributes -> attributes.
Variables ICANON ECHO : Z.

(** C5, amended: when the version check succeeds and the second fields
    of the two geometry responses are the integers [height_in_pixels] and
    [height_in_cells], the negotiation computes the icon size in double
    precision: the quotient of the two heights rounded to a double, times
    the double nearest to 1.77, rounded again, and then the ceiling. For 340
    pixels and 20 rows this is 31. *)
Theorem detect_terminal_icon_size (self : PSApplication) (t : terminal)
    (v r2 pixels cells fp fc : string) (major height_in_pixels height_in_cells : Z)
    (rest1 rest2 rest3 rest4 : list input_event) :
  _have_terminal self = true -> _plain_terminal self = false ->
  platform_system self = "Darwin" ->
  out_budget t = None ->
  read_response "n" (input t) = (Returned ("ITERM2 " ++ v), rest1) ->
  read_response "n" rest1 = (Returned r2, rest2) ->
  (2 <= length (Py.splitn v "." 2))%nat ->
  Py.parse_int (major_of v) = Some major -> (3 <= major)%Z ->
  read_response "t" rest2 = (Returned pixels, rest3) ->
  read_response "t" rest3 = (Returned cells, rest4) ->
  nth_error (Py.split pixels ";") 1 = Some fp ->
  Py.parse_int fp = Some height_in_pixels ->
  nth_error (Py.split cells ";") 1 = Some fc ->
  Py.parse_int fc = Some height_in_cells ->
  fst (_detect_terminal setraw_attributes ICANON ECHO self t)
  = obind (Float.truediv height_in_pixels height_in_cells) (fun ratio =>
      obind (Float.ceil (Float.mul ratio Float.lit_1_77)) (fun icon_size =>
        Returned ("iterm2", icon_size)))
  /\ icon_size_of 340 20 = Returned 31%Z.
Proof.
  intros G1 G2 G3 Hb H1 H2 Hlen Hm Hge Hp Hc Hfp Hhp Hfc Hhc.
  split; [|vm_compute; reflexivity].
  rewrite (detect_outcome _ _ _ self t G1 G2 G3).
  rewrite (negotiate_outcome _ _ _ t ("ITERM2 " ++ v) r2 rest1 rest2 Hb H1 H2);
    [|rewrite append_cons; discriminate|rewrite append_cons; discriminate].
  rewrite after_first_response_prefix, Hm.
  destruct (Z.leb_spec 2 (Z.of_nat (length (Py.splitn v "." 2)))) as [_|Hl]; [|lia].
  destruct (Z.leb_spec 3 major) as [_|Hl]; [|lia].
  unfold geometry. rewrite Hp. unfold geometry_field, Py.index, Py.int.
  rewrite Hfp. cbn [obind]. rewrite Hhp. cbn [obind].
  rewrite Hc, Hfc. cbn [obind]. rewrite Hhc. cbn [obind].
  unfold icon_size_of.
  destruct (Float.truediv height_in_pixels height_in_cells) as [ratio|e|];
    cbn [obind]; try reflexivity.
Qed.

End IconSize.

Lemma detect_terminal_icon_size_witness :
  fst (Darwin.detect (Darwin.mac true false) iterm2_340_20) =
  obind (Float.truediv 340 20) (fun ratio =>
    obind (Float.ceil (Float.mul ratio Float.lit_1_77)) (fun icon_size =>
      Returned ("iterm2", icon_size))).
Proof.
  refine (proj1 (detect_terminal_icon_size
                   Darwin.setraw_attributes Darwin.ICANON Darwin.ECHO
                   (Darwin.mac true false) iterm2_340_20
                   "3.4.19" "0" "4;340;600" "8;20;80" "340" "20" 3 340 20
                   (Darwin.chars (Darwin.reply "0" "n" ++ Darwin.reply "4;340;600" "t"
                                  ++ Darwin.reply "8;20;80" "t"))
                   (Darwin.chars (Darwin.reply "4;340;600" "t"
                                  ++ Darwin.reply "8;20;80" "t"))
                   (Darwin.chars (Darwin.reply "8;20;80" "t")) []
                   eq_refl eq_refl eq_refl eq_refl eq_refl eq_refl
                   _ eq_refl _ eq_refl eq_refl eq_refl eq_refl eq_refl eq_refl)).
  - vm_compute. lia.
  - lia.
Defined.


(** ** Further checks of the model *)

(** Sorting a sorted list changes nothing, so sorting twice is sorting
    once. *)
Lemma sorted_of_sorted {A} (cmp : A -> A -> Z) (l : list A) :
  (forall x y, cmp y x = (- cmp x y)%Z) ->
  StronglySorted (precedes cmp) l -> sorted cmp l = l.
Proof.
  intros Hanti. induction 1 as [|x l Hs IH Hx]; simpl; [reflexivity|].
  rewrite IH. destruct l as [|y l']; simpl; [reflexivity|].
  apply Forall_cons in Hx as [Hxy _]. unfold precedes in Hxy.
  rewrite (Hanti x y).
  destruct (Z.ltb_spec (- cmp x y) 0); [lia|reflexivity].
Qed.

Lemma sorted_processes_idempotent (l : list Process) :
  sorted compare_processes (sorted compare_processes l) = sorted compare_processes l.
Proof.
  apply sorted_of_sorted; [apply compare_processes_antisym|apply sorted_processes_sorted].
Qed.

Lemma sorted_applications_idempotent (l : list Application) :
  sorted compare_applications (sorted compare_applications l)
  = sorted compare_applications l.
Proof.
  apply sorted_of_sorted;
    [apply compare_applications_antisym|apply sorted_applications_sorted].
Qed.

(** Records with equal keys keep the order the backend gave them. *)
Example sorted_is_stable :
  map pid (sorted compare_processes
             [ {| pid := 3; name := "sh"; parameters := ∅ |};
               {| pid := 1; name := "init"; parameters := ∅ |};
               {| pid := 2; name := "sh"; parameters := ∅ |} ])
  = [1; 3; 2]%Z.
Proof. vm_compute. reflexivity. Qed.

Lemma read_until_reply (terminator : ascii) (body : string)
    (rest : list input_event) (result : string) :
  (forall c, In c (list_ascii_of_string body) -> c <> terminator) ->
  read_until terminator (Darwin.chars body ++ Char terminator :: rest)%list result
  = (Returned (result ++ body), rest).
Proof.
  revert result. induction body as [|c body IH]; intros result Hno; simpl.
  - rewrite Ascii.eqb_refl.
    replace (result ++ EmptyString) with result; [reflexivity|].
    induction result as [|r result IHr]; [reflexivity|].
    rewrite append_cons, <- IHr. reflexivity.
  - destruct (Ascii.eqb_spec c terminator) as [E|_].
    + exfalso. apply (Hno c); [left; reflexivity|exact E].
    + rewrite IH; [|intros c' Hin; apply Hno; right; exact Hin].
      f_equal. f_equal.
      induction result as [|r result IHr]; [reflexivity|].
      rewrite !append_cons, IHr. reflexivity.
Qed.

(** A reply of the terminal is read back as its body, when the body does
    not hold the terminator. *)
Lemma read_response_reply (terminator : ascii) (body : string)
    (rest : list input_event) :
  (forall c, In c (list_ascii_of_string body) -> c <> terminator) ->
  read_response terminator
    (Darwin.chars (Darwin.reply body terminator) ++ rest)%list
  = (Returned body, rest).
Proof.
  intros Hno. unfold Darwin.reply. rewrite append_cons.
  assert (Hchars : forall a b, Darwin.chars (a ++ b)
                               = (Darwin.chars a ++ Darwin.chars b)%list).
  { intros a b. induction a as [|c a IHa]; [reflexivity|].
    rewrite append_cons. simpl. rewrite IHa. reflexivity. }
  change (String ESC (String "[" EmptyString ++ body ++ String terminator EmptyString))
    with (String ESC (String "[" (body ++ String terminator EmptyString))).
  simpl Darwin.chars. rewrite Hchars. simpl.
  rewrite <- app_assoc. simpl.
  rewrite (read_until_reply terminator body rest EmptyString Hno). reflexivity.
Qed.

(** The text [json.dumps] prints for the Foo entry, line by line. *)
Example dumps_foo :
  let q := Json.dquote in
  let nl := String "010" EmptyString in
  Json.dumps (Json.List [foo_entry])
  = "[" ++ nl
    ++ "  {" ++ nl
    ++ "    " ++ q ++ "pid" ++ q ++ ": null," ++ nl
    ++ "    " ++ q ++ "name" ++ q ++ ": " ++ q ++ "Foo" ++ q ++ "," ++ nl
    ++ "    " ++ q ++ "identifier" ++ q ++ ": " ++ q ++ "com.foo" ++ q ++ nl
    ++ "  }" ++ nl
    ++ "]".
Proof. vm_compute. reflexivity. Qed.

Example dumps_empty : Json.dumps (Json.List []) = "[]".
Proof. reflexivity. Qed.

Example dumps_escapes :
  Json.dumps (Json.Str (String "034" (String "010" (String "233" "\"))))
  = Json.dquote ++ "\" ++ Json.dquote ++ "\n\u00e9\\" ++ Json.dquote.
Proof. vm_compute. reflexivity. Qed.

(** * More of the program *)

(** ** The sort is stable *)

Section Stability.
Context {A : Type} (cmp : A -> A -> Z).
Hypothesis cmp_equal :
  forall x y k, cmp x k = 0%Z -> cmp y k = 0%Z -> cmp y x = 0%Z.

Lemma insert_sorted_class (k x : A) (l : list A) :
  List.filter (fun y => (cmp y k =? 0)%Z) (insert_sorted cmp x l)
  = List.filter (fun y => (cmp y k =? 0)%Z) (x :: l).
Proof.
  induction l as [|y l IH]; [reflexivity|].
  cbn [insert_sorted].
  destruct (cmp y x <? 0)%Z eqn:Hlt; [|reflexivity].
  cbn [List.filter] in *. rewrite IH.
  destruct (Z.eqb_spec (cmp x k) 0) as [Ex|_];
    destruct (Z.eqb_spec (cmp y k) 0) as [Ey|_]; try reflexivity.
  apply Z.ltb_lt in Hlt. rewrite (cmp_equal x y k Ex Ey) in Hlt. lia.
Qed.

Lemma sorted_class (k : A) (l : list A) :
  List.filter (fun y => (cmp y k =? 0)%Z) (sorted cmp l)
  = List.filter (fun y => (cmp y k =? 0)%Z) l.
Proof.
  induction l as [|x l IH]; [reflexivity|].
  cbn [sorted]. rewrite insert_sorted_class. cbn [List.filter]. rewrite IH.
  reflexivity.
Qed.
End Stability.

(** X1: the sort of both listings is stable. The records that compare equal
    to a given record (same group, same name) stand in the sorted list in the
    order in which the backend returned them. *)
Theorem sorted_listing_stable :
  (forall (k : Process) (l : list Process),
      List.filter (fun p => (compare_processes p k =? 0)%Z)
                  (sorted compare_processes l)
      = List.filter (fun p => (compare_processes p k =? 0)%Z) l)
  /\ (forall (k : Application) (l : list Application),
      List.filter (fun a => (compare_applications a k =? 0)%Z)
                  (sorted compare_applications l)
      = List.filter (fun a => (compare_applications a k =? 0)%Z) l).
Proof.
  split; intros k l; apply sorted_class; intros x y k'.
  - rewrite !compare_processes_shape, !group_then_name_zero.
    intros [-> ->] [-> ->]. split; reflexivity.
  - rewrite !compare_applications_shape, !group_then_name_zero.
    intros [-> ->] [-> ->]. split; reflexivity.
Qed.

(** ** The sorted process list *)

Lemma sorted_entries_first (l : list Process) :
  StronglySorted (precedes compare_processes) l ->
  exists with_entry without,
    l = (with_entry ++ without)%list
    /\ Forall (fun p => is_Some (parameters p !! "icons")) with_entry
    /\ Forall (fun p => parameters p !! "icons" = None) without.
Proof.
  induction 1 as [|x l Hs IH Hx].
  - exists [], []. repeat split; constructor.
  - destruct IH as (with_entry & without & -> & Hw & Hwo).
    destruct (parameters x !! "icons") as [icons|] eqn:Ex.
    + exists (x :: with_entry), without.
      split; [reflexivity|]. split; [|exact Hwo].
      constructor; [rewrite Ex; eexists; reflexivity|exact Hw].
    + exists [], (x :: with_entry ++ without)%list.
      split; [reflexivity|]. split; [constructor|].
      constructor; [exact Ex|].
      eapply Forall_impl; [exact Hx|].
      intros y Hxy. unfold precedes in Hxy.
      destruct (parameters y !! "icons") as [icons|] eqn:Ey; [exfalso|reflexivity].
      rewrite compare_processes_shape in Hxy. unfold group_then_name, has_key in Hxy.
      rewrite Ex, Ey in Hxy. vm_compute in Hxy. apply Hxy. reflexivity.
Qed.

(** X2: the sorted process list is a rearrangement of the records of the
    backend in which every record with an ["icons"] entry stands before every
    record without one, and sorting it again leaves it as it is. *)
Theorem sorted_processes_layout : forall l : list Process,
  Permutation (sorted compare_processes l) l
  /\ (exists with_entry without,
        sorted compare_processes l = (with_entry ++ without)%list
        /\ Forall (fun p => is_Some (parameters p !! "icons")) with_entry
        /\ Forall (fun p => parameters p !! "icons" = None) without)
  /\ sorted compare_processes (sorted compare_processes l)
     = sorted compare_processes l.
Proof.
  intros l. split; [apply sorted_perm|]. split.
  - apply sorted_entries_first, sorted_processes_sorted.
  - apply sorted_processes_idempotent.
Qed.

(** ** JSON output of the process listing *)

(** X3: in JSON mode [_list_processes] asks the backend for the ["minimal"]
    scope, whatever the terminal and the flags are, and prints one entry per
    record of the backend, none left out, in sorted order; each entry has the
    keys [pid] and [name] in this order, and the pid is the integer itself,
    also when it is 0. *)
Theorem list_processes_json (self : PSApplication) (processes : list Process) :
  _output_format self = "json" ->
  call_backend self (fun d => enumerate_processes d (process_scope self))
  = Listed processes ->
  process_scope self = "minimal"
  /\ exists ordered,
       _list_processes self
       = ([Print (Json.dumps (Json.List (map process_entry ordered))); Exit 0],
          Returned tt)
       /\ Permutation ordered processes
       /\ StronglySorted (precedes compare_processes) ordered
       /\ Forall (fun p =>
            process_entry p
            = Json.Dict [("pid", Json.Int (pid p)); ("name", Json.Str (name p))])
            ordered.
Proof.
  intros Hf Hcall. split.
  - unfold process_scope. rewrite Hf.
    change (String.eqb "json" "text") with false.
    rewrite andb_false_r. reflexivity.
  - exists (sorted compare_processes processes).
    split; [|split; [|split]].
    + unfold _list_processes. cbv zeta. rewrite Hcall, Hf.
      change (String.eqb "json" "text") with false.
      change (String.eqb "json" "json") with true. reflexivity.
    + apply sorted_perm.
    + apply sorted_processes_sorted.
    + apply Forall_forall. intros p _. reflexivity.
Qed.

Lemma list_processes_json_witness :
  process_scope ps_processes_json = "minimal"
  /\ exists ordered,
       _list_processes ps_processes_json
       = ([Print (Json.dumps (Json.List (map process_entry ordered))); Exit 0],
          Returned tt)
       /\ Permutation ordered three_processes.
Proof.
  destruct (list_processes_json ps_processes_json three_processes eq_refl eq_refl)
    as (Hscope & ordered & Hout & Hperm & _).
  split; [exact Hscope|]. exists ordered. split; [exact Hout|exact Hperm].
Defined.

(** ** The columns of the text listing *)

Lemma length_repeat_char (c : ascii) (n : nat) :
  String.length (Py.repeat_char c n) = n.
Proof. induction n as [|n IH]; simpl; [reflexivity|]. rewrite IH. reflexivity. Qed.

Lemma length_append (a b : string) :
  String.length (a ++ b) = (String.length a + String.length b)%nat.
Proof.
  induction a as [|c a IH]; [reflexivity|].
  rewrite append_cons. simpl. rewrite IH. reflexivity.
Qed.

Lemma len_append (a b : string) : Py.len (a ++ b) = (Py.len a + Py.len b)%Z.
Proof. unfold Py.len. rewrite length_append. lia. Qed.

Lemma len_mul_str (n : Z) (c : ascii) : Py.len (Py.mul_str n c) = Z.max 0 n.
Proof. unfold Py.len, Py.mul_str. rewrite length_repeat_char. lia. Qed.

(** A justified cell is as wide as the field, or as the text when the text
    is wider. *)
Lemma len_rjust (w : Z) (s : string) : Py.len (Py.rjust w s) = Z.max w (Py.len s).
Proof.
  unfold Py.rjust. rewrite len_append, len_mul_str.
  unfold Py.len. lia.
Qed.

Lemma len_ljust (w : Z) (s : string) : Py.len (Py.ljust w s) = Z.max w (Py.len s).
Proof.
  unfold Py.ljust. rewrite len_append, len_mul_str.
  unfold Py.len. lia.
Qed.

Lemma fold_max_ge {A} (f : A -> Z) (l : list A) (a : Z) :
  (a <= fold_left (fun m y => Z.max m (f y)) l a)%Z
  /\ forall x, In x l -> (f x <= fold_left (fun m y => Z.max m (f y)) l a)%Z.
Proof.
  revert a. induction l as [|y l IH]; intros a; simpl.
  - split; [lia|]. intros x [].
  - destruct (IH (Z.max a (f y))) as [Ha Hl]. split; [lia|].
    intros x [->|Hin]; [lia|]. apply Hl, Hin.
Qed.

(** [max(map(f, l))] bounds [f] on every element of [l]. *)
Lemma max_map_ge {A} (f : A -> Z) (l : list A) (x : A) :
  In x l -> (f x <= max_map f l)%Z.
Proof.
  destruct l as [|y l]; [intros []|].
  unfold max_map. destruct (fold_max_ge f l (f y)) as [Ha Hl].
  intros [->|Hin]; [exact Ha|]. apply Hl, Hin.
Qed.

(** When every row returns, the loop prints one line per record. *)
Lemma print_rows_all {A} (row : A -> outcome string) (line : A -> string)
    (items : list A) :
  (forall item, In item items -> row item = Returned (line item)) ->
  print_rows row items = (map (fun item => Print (line item)) items, Returned tt).
Proof.
  induction items as [|item rest IH]; intros Hrow; [reflexivity|].
  cbn [print_rows]. rewrite (Hrow item (or_introl eq_refl)).
  rewrite (IH (fun i Hi => Hrow i (or_intror Hi))). reflexivity.
Qed.

Lemma process_row_plain (self : PSApplication) (W N : Z) (p : Process) :
  process_row self W 0 (0 + N) p
  = Returned (Py.rjust W (Py.str_of_int (pid p)) ++ "  " ++ Py.ljust N (name p)).
Proof.
  unfold process_row, name_cell. cbn.
  replace (0 + N - 0)%Z with N by lia. reflexivity.
Qed.

(** X4: the text listing of processes without icons is a table. After the
    header come a separator and one row per record, in sorted order; the
    separator and every row have the same length, the width of the longest
    pid plus two plus the length of the longest name, so the pids end in one
    column and the names start in one column. The header is not cut to the
    column: its pid cell is three characters wide when every pid has fewer
    than three digits. The listing ends with exit code 0. *)
Theorem list_processes_text_aligned (self : PSApplication)
    (processes : list Process) :
  _output_format self = "text" ->
  call_backend self (fun d => enumerate_processes d (process_scope self))
  = Listed processes ->
  processes <> [] ->
  icon_width_of processes = 0%Z ->
  let W := max_map (fun p => Py.len (Py.str_of_int (pid p))) processes in
  let N := max_map (fun p => Py.len (name p)) processes in
  let row p := Py.rjust W (Py.str_of_int (pid p)) ++ "  " ++ Py.ljust N (name p) in
  let separator := Py.mul_str W "-" ++ "  " ++ Py.mul_str N "-" in
  _list_processes self
  = ((Print (Py.rjust W "PID" ++ "  " ++ "Name") :: Print separator
      :: map (fun p => Print (row p)) (sorted compare_processes processes))
     ++ [Exit 0], Returned tt)%list
  /\ Py.len separator = (W + 2 + N)%Z
  /\ (forall p, In p processes ->
        Py.len (row p) = (W + 2 + N)%Z
        /\ Py.len (Py.rjust W (Py.str_of_int (pid p))) = W)
  /\ Py.len (Py.rjust W "PID") = Z.max W 3.
Proof.
  intros Hf Hcall Hne Hicon W N row separator.
  assert (HW : forall p, In p processes -> (Py.len (Py.str_of_int (pid p)) <= W)%Z).
  { intros p Hin. apply (max_map_ge (fun p => Py.len (Py.str_of_int (pid p)))), Hin. }
  assert (HN : forall p, In p processes -> (Py.len (name p) <= N)%Z).
  { intros p Hin. apply (max_map_ge (fun p => Py.len (name p))), Hin. }
  assert (H0 : (0 <= W /\ 0 <= N)%Z).
  { destruct processes as [|p l]; [congruence|].
    specialize (HW p (or_introl eq_refl)). specialize (HN p (or_introl eq_refl)).
    unfold Py.len in *. lia. }
  split; [|split; [|split; [|apply len_rjust]]].
  - unfold _list_processes. cbv zeta. rewrite Hcall, Hf.
    change (String.eqb "text" "text") with true. cbv iota.
    replace (0 <? Z.of_nat (length processes))%Z with true
      by (destruct processes; [congruence|reflexivity]).
    rewrite Hicon. fold W N.
    rewrite (print_rows_all _ row).
    + reflexivity.
    + intros p _. apply process_row_plain.
  - unfold separator. rewrite !len_append, !len_mul_str.
    change (Py.len "  ") with 2%Z. lia.
  - intros p Hin. specialize (HW p Hin). specialize (HN p Hin).
    unfold row. rewrite !len_append, len_rjust, len_ljust.
    change (Py.len "  ") with 2%Z. lia.
Qed.

Lemma list_processes_text_aligned_witness :
  _list_processes (ps_text false false)
  = ([Print " PID  Name"; Print "----  -------";
      Print "   1  launchd"; Print "  77  sh     "; Print "1204  sshd   ";
      Exit 0], Returned tt).
Proof.
  refine (eq_trans
            (proj1 (list_processes_text_aligned (ps_text false false) three_processes
                      eq_refl eq_refl _ eq_refl)) _).
  - discriminate.
  - vm_compute. reflexivity.
Defined.

Lemma application_row_plain (self : PSApplication) (W N I : Z) (app : Application) :
  application_row self W 0 (0 + N) I app
  = Returned (Py.rjust W (if (app_pid app =? 0)%Z then "-"
                          else Py.str_of_int (app_pid app))
              ++ "  " ++ Py.ljust N (app_name app)
              ++ "  " ++ Py.ljust I (app_identifier app)).
Proof.
  unfold application_row, name_cell. cbn.
  replace (0 + N - 0)%Z with N by lia. reflexivity.
Qed.

(** X5: the text listing of applications without icons is a table of three
    columns. An application that is not running shows ["-"] in place of its
    pid, which never widens the pid column; the separator and every row have
    the same length, so the three columns are aligned; the header is not cut
    to the columns and may be wider. Without [--installed] the applications
    that are not running are left out of the table and of the widths. *)
Theorem list_applications_text_aligned (self : PSApplication)
    (applications : list Application) :
  _output_format self = "text" ->
  call_backend self (fun d => enumerate_applications d (application_scope self))
  = Listed applications ->
  let listed := listed_applications self applications in
  listed <> [] ->
  icon_width_of listed = 0%Z ->
  let W := max_map (fun a => Py.len (Py.str_of_int (app_pid a))) listed in
  let N := max_map (fun a => Py.len (app_name a)) listed in
  let I := max_map (fun a => Py.len (app_identifier a)) listed in
  let pid_cell a :=
    if (app_pid a =? 0)%Z then "-" else Py.str_of_int (app_pid a) in
  let row a :=
    Py.rjust W (pid_cell a) ++ "  " ++ Py.ljust N (app_name a)
    ++ "  " ++ Py.ljust I (app_identifier a) in
  let separator :=
    Py.mul_str W "-" ++ "  " ++ Py.mul_str N "-" ++ "  " ++ Py.mul_str I "-" in
  _list_applications self
  = ((Print (Py.rjust W "PID" ++ "  " ++ Py.ljust N "Name" ++ "  "
             ++ Py.ljust I "Identifier")
      :: Print separator
      :: map (fun a => Print (row a)) (sorted compare_applications listed))
     ++ [Exit 0], Returned tt)%list
  /\ Py.len separator = (W + 2 + N + 2 + I)%Z
  /\ (forall a, In a listed ->
        Py.len (row a) = (W + 2 + N + 2 + I)%Z
        /\ Py.len (Py.rjust W (pid_cell a)) = W)
  /\ (_include_all_applications self = false ->
      forall a, In a listed -> app_pid a <> 0%Z)
  /\ Py.len (Py.rjust W "PID") = Z.max W 3.
Proof.
  intros Hf Hcall listed Hne Hicon W N I pid_cell row separator.
  assert (HW : forall a, In a listed -> (Py.len (pid_cell a) <= W)%Z).
  { intros a Hin.
    pose proof (max_map_ge (fun a => Py.len (Py.str_of_int (app_pid a))) listed a Hin)
      as Hle.
    cbv beta in Hle. fold W in Hle. unfold pid_cell.
    destruct (Z.eqb_spec (app_pid a) 0) as [E|_]; [|exact Hle].
    rewrite E in Hle. exact Hle. }
  assert (HN : forall a, In a listed -> (Py.len (app_name a) <= N)%Z).
  { intros a Hin. apply (max_map_ge (fun a => Py.len (app_name a))), Hin. }
  assert (HI : forall a, In a listed -> (Py.len (app_identifier a) <= I)%Z).
  { intros a Hin. apply (max_map_ge (fun a => Py.len (app_identifier a))), Hin. }
  assert (H0 : (0 <= W /\ 0 <= N /\ 0 <= I)%Z).
  { destruct listed as [|a l]; [congruence|].
    specialize (HW a (or_introl eq_refl)). specialize (HN a (or_introl eq_refl)).
    specialize (HI a (or_introl eq_refl)). unfold Py.len in *. lia. }
  split; [|split; [|split; [|split; [|apply len_rjust]]]].
  - unfold _list_applications. cbv zeta. rewrite Hcall, Hf.
    change (String.eqb "text" "text") with true. cbv iota.
    fold listed.
    replace (0 <? Z.of_nat (length listed))%Z with true
      by (destruct listed; [congruence|reflexivity]).
    rewrite Hicon. fold W N I.
    rewrite (print_rows_all _ row).
    + reflexivity.
    + intros a _. apply application_row_plain.
  - unfold separator. rewrite !len_append, !len_mul_str.
    change (Py.len "  ") with 2%Z. lia.
  - intros a Hin. specialize (HW a Hin). specialize (HN a Hin).
    specialize (HI a Hin).
    unfold row. rewrite !len_append, len_rjust, !len_ljust.
    change (Py.len "  ") with 2%Z. lia.
  - intros Hall a Hin. unfold listed, listed_applications in Hin.
    rewrite Hall in Hin. cbn [negb] in Hin.
    apply filter_In in Hin as [_ Hpid].
    apply negb_true_iff, Z.eqb_neq in Hpid. exact Hpid.
Qed.

Lemma list_applications_text_aligned_witness :
  _list_applications (ps_text true true)
  = ([Print "PID  Name  Identifier"; Print "--  ---  -------";
      Print "42  Bar  com.bar"; Print " -  Foo  com.foo";
      Exit 0], Returned tt).
Proof.
  refine (eq_trans
            (proj1 (list_applications_text_aligned (ps_text true true) [foo; bar]
                      eq_refl eq_refl _ eq_refl)) _).
  - discriminate.
  - vm_compute. reflexivity.
Defined.

(** ** Reading a response *)

Lemma read_until_starved (terminator : ascii) (pending : list input_event)
    (result : string) :
  Forall (fun ev => exists c, ev = Char c /\ c <> terminator) pending ->
  fst (read_until terminator pending result) = Blocked.
Proof.
  revert result. induction pending as [|ev pending IH]; intros result Hall;
    [reflexivity|].
  apply Forall_cons in Hall as [(c & -> & Hc) Hall]. simpl.
  destruct (Ascii.eqb_spec c terminator) as [E|_]; [contradiction|].
  apply IH, Hall.
Qed.

(** X6: [_read_terminal_response] drops two characters without looking at
    them, returns the characters up to the first terminator, and consumes the
    terminator and nothing after it. When the pending input holds no
    terminator, the call does not return. *)
Theorem read_terminal_response_one_reply (terminator : ascii) (t : terminal) :
  (forall c1 c2 body rest,
      input t = (Char c1 :: Char c2 :: Darwin.chars body ++ Char terminator :: rest)%list ->
      (forall c, In c (list_ascii_of_string body) -> c <> terminator) ->
      _read_terminal_response terminator t = (Returned body, with_input t rest))
  /\ (Forall (fun ev => exists c, ev = Char c /\ c <> terminator) (input t) ->
      fst (_read_terminal_response terminator t) = Blocked).
Proof.
  split.
  - intros c1 c2 body rest Hin Hno.
    rewrite read_terminal_response_run, Hin. cbn [read_response].
    rewrite (read_until_reply terminator body rest EmptyString Hno). reflexivity.
  - intros Hall. rewrite read_terminal_response_run. cbn [fst].
    destruct (input t) as [|ev1 [|ev2 pending]]; [reflexivity| |].
    + apply Forall_cons in Hall as [(c & -> & _) _]. reflexivity.
    + apply Forall_cons in Hall as [(c1 & -> & _) Hall].
      apply Forall_cons in Hall as [(c2 & -> & _) Hall].
      cbn [read_response]. apply read_until_starved, Hall.
Qed.

(** ** What the negotiation writes *)

Lemma advances_pure {A} (j kmax : nat) (K : A -> nat) (m : Term A) :
  (forall t, output (snd (m t)) = output t) ->
  (forall t a, fst (m t) = Returned a -> K a = j) ->
  (j <= kmax)%nat ->
  advances j K kmax m.
Proof.
  intros Hout HK Hle o t Hw. unfold wrote in *. rewrite Hout. split.
  - exists j. split; [lia|exact Hw].
  - intros a Ha. rewrite (HK t a Ha). exact Hw.
Qed.

Lemma advances_tret {A} (j kmax : nat) (K : A -> nat) (a : A) :
  K a = j -> (j <= kmax)%nat -> advances j K kmax (tret a).
Proof.
  intros HK Hle. apply advances_pure; [reflexivity| |exact Hle].
  intros t a' Ha. injection Ha as <-. exact HK.
Qed.

Lemma advances_stdout_call (j : nat) (ev : output_event) :
  firstn (S j) probes = (firstn j probes ++ [ev])%list ->
  advances j (fun _ => S j) (S j) (stdout_call ev).
Proof.
  intros Hev o t Hw. unfold wrote in *. unfold stdout_call.
  assert (Hnext : (output t ++ [ev])%list = (o ++ firstn (S j) probes)%list).
  { rewrite Hw, Hev, app_assoc. reflexivity. }
  destruct (out_budget t) as [[|k]|]; cbn [fst snd output].
  - split; [exists j; split; [lia|exact Hw]|discriminate].
  - split; [exists (S j); split; [lia|exact Hnext]|intros _ _; exact Hnext].
  - split; [exists (S j); split; [lia|exact Hnext]|intros _ _; exact Hnext].
Qed.

Lemma advances_tbind {A B} (j k kmax : nat) (K : B -> nat)
    (m : Term A) (f : A -> Term B) :
  advances j (fun _ => k) k m ->
  (forall a, advances k K kmax (f a)) ->
  (k <= kmax)%nat ->
  advances j K kmax (tbind m f).
Proof.
  intros Hm Hf Hle o t Hw. destruct (Hm o t Hw) as [(i & Hi & Hwi) Hret].
  unfold tbind. destruct (m t) as [[a|e|] t'] eqn:Hmt; cbn [fst snd] in *.
  - specialize (Hret a eq_refl).
    destruct (Hf a o t' Hret) as [(i' & Hi' & Hwi') Hret'].
    split; [exists i'; split; [lia|exact Hwi']|exact Hret'].
  - split; [exists i; split; [lia|exact Hwi]|discriminate].
  - split; [exists i; split; [lia|exact Hwi]|discriminate].
Qed.

Lemma advances_tlift {A B} (k kmax : nat) (K : B -> nat)
    (o : outcome A) (f : A -> Term B) :
  (forall a, advances k K kmax (f a)) ->
  (k <= kmax)%nat ->
  advances k K kmax (tbind (tlift o) f).
Proof.
  intros Hf Hle. apply (advances_tbind k k); [|exact Hf|exact Hle].
  apply advances_pure; [reflexivity|reflexivity|lia].
Qed.

Lemma advances_read {B} (k kmax : nat) (K : B -> nat)
    (terminator : ascii) (f : string -> Term B) :
  (forall a, advances k K kmax (f a)) ->
  (k <= kmax)%nat ->
  advances k K kmax (tbind (_read_terminal_response terminator) f).
Proof.
  intros Hf Hle. apply (advances_tbind k k); [|exact Hf|exact Hle].
  apply advances_pure; [|reflexivity|lia].
  intros t. rewrite read_terminal_response_run. reflexivity.
Qed.

Lemma advances_write {B} (j kmax : nat) (K : B -> nat)
    (ev : output_event) (f : unit -> Term B) :
  firstn (S j) probes = (firstn j probes ++ [ev])%list ->
  (forall a, advances (S j) K kmax (f a)) ->
  (S j <= kmax)%nat ->
  advances j K kmax (tbind (stdout_call ev) f).
Proof.
  intros Hev Hf Hle. apply (advances_tbind j (S j)); [|exact Hf|exact Hle].
  apply advances_stdout_call, Hev.
Qed.

Section NegotiationOutput.
Variable setraw_attributes : attributes -> attributes.
Variables ICANON ECHO : Z.

Lemma negotiate_advances :
  advances 0 probes_of_result 7 (negotiate setraw_attributes ICANON ECHO 0).
Proof.
  unfold negotiate, tty_setraw, stdout_write, stdout_flush.
  apply (advances_tbind 0 0); [|intros _|lia].
  { apply advances_pure; [|reflexivity|lia]. intros t. reflexivity. }
  apply (advances_tbind 0 0); [|intros new_attributes|lia].
  { apply advances_pure; [|reflexivity|lia]. intros t. reflexivity. }
  apply (advances_tbind 0 0); [|intros _|lia].
  { apply advances_pure; [|reflexivity|lia]. intros t. reflexivity. }
  apply advances_write; [reflexivity|intros _|lia].
  apply advances_write; [reflexivity|intros _|lia].
  apply advances_write; [reflexivity|intros _|lia].
  apply advances_read; [intros response|lia].
  destruct (negb _); [|apply advances_tret; [reflexivity|lia]].
  apply advances_read; [intros _|lia].
  destruct (Py.startswith _ _); [|apply advances_tret; [reflexivity|lia]].
  apply advances_tlift; [intros version_tokens|lia].
  destruct (_ <=? _)%Z; [|apply advances_tret; [reflexivity|lia]].
  apply advances_tlift; [intros major|lia].
  destruct (_ <=? _)%Z; [|apply advances_tret; [reflexivity|lia]].
  apply advances_write; [reflexivity|intros _|lia].
  apply advances_write; [reflexivity|intros _|lia].
  apply advances_read; [intros pixels|lia].
  apply advances_tlift; [intros height_in_pixels|lia].
  apply advances_write; [reflexivity|intros _|lia].
  apply advances_write; [reflexivity|intros _|lia].
  apply advances_read; [intros cells|lia].
  apply advances_tlift; [intros height_in_cells|lia].
  apply advances_tlift; [intros icon_size|lia].
  apply advances_tret; [reflexivity|lia].
Qed.

(** X7: the negotiation writes the probes in the order of the source and
    nothing else: whatever happens, what it has written is a prefix of the
    seven writes and flushes. It has written all seven when it returns
    [("iterm2", size)], and exactly the two capability probes and their flush
    when it returns [("simple", 0)] on a Mac with a terminal. *)
Theorem detect_terminal_writes_probes_only (self : PSApplication) (t : terminal) :
  (exists k, output (snd (_detect_terminal setraw_attributes ICANON ECHO self t))
             = (output t ++ firstn k probes)%list)
  /\ (forall size,
        fst (_detect_terminal setraw_attributes ICANON ECHO self t)
        = Returned ("iterm2", size) ->
        output (snd (_detect_terminal setraw_attributes ICANON ECHO self t))
        = (output t ++ probes)%list)
  /\ (_have_terminal self = true -> _plain_terminal self = false ->
      platform_system self = "Darwin" ->
      forall size,
        fst (_detect_terminal setraw_attributes ICANON ECHO self t)
        = Returned ("simple", size) ->
        output (snd (_detect_terminal setraw_attributes ICANON ECHO self t))
        = (output t ++ firstn 3 probes)%list).
Proof.
  assert (Hstart : wrote (output t) 0 t).
  { unfold wrote. cbn [firstn]. rewrite app_nil_r. reflexivity. }
  destruct (negotiate_advances (output t) t Hstart) as [(i & Hi & Hwi) Hret].
  unfold wrote in Hwi, Hret.
  unfold _detect_terminal.
  destruct (negb (_have_terminal self) || _plain_terminal self
            || negb (String.eqb (platform_system self) "Darwin")) eqn:Hguard.
  - cbn [tret fst snd]. split; [exists 0%nat; cbn [firstn]; rewrite app_nil_r; reflexivity|].
    split; [discriminate|].
    intros H1 H2 H3. rewrite H1, H2, H3 in Hguard. discriminate Hguard.
  - unfold tbind, tcgetattr, try_finally, tcsetattr. cbv beta iota.
    destruct (negotiate setraw_attributes ICANON ECHO 0 t) as [[r|e|] t'];
      cbn [fst snd output] in *.
    + split; [exists i; exact Hwi|]. split.
      * intros size E. injection E as ->. exact (Hret _ eq_refl).
      * intros _ _ _ size E. injection E as ->. exact (Hret _ eq_refl).
    + split; [exists i; exact Hwi|]. split; [discriminate|]. intros _ _ _ size E.
      discriminate E.
    + split; [exists i; exact Hwi|]. split; [discriminate|]. intros _ _ _ size E.
      discriminate E.
Qed.

End NegotiationOutput.

(** ** Failures of the geometry probes *)

Section GeometryFailures.
Variable setraw_attributes : attributes -> attributes.
Variables ICANON ECHO : Z.

(** X8: once the version check has succeeded, a geometry response without a
    second field raises [IndexError], a second field that is not an integer
    raises [ValueError], and a height of 0 rows raises
    [ZeroDivisionError]. *)
Theorem detect_terminal_geometry_failures (self : PSApplication) (t : terminal)
    (v r2 pixels : string) (major : Z) (rest1 rest2 rest3 : list input_event) :
  _have_terminal self = true -> _plain_terminal self = false ->
  platform_system self = "Darwin" ->
  out_budget t = None ->
  read_response "n" (input t) = (Returned ("ITERM2 " ++ v), rest1) ->
  read_response "n" rest1 = (Returned r2, rest2) ->
  (2 <= length (Py.splitn v "." 2))%nat ->
  Py.parse_int (major_of v) = Some major -> (3 <= major)%Z ->
  read_response "t" rest2 = (Returned pixels, rest3) ->
  (nth_error (Py.split pixels ";") 1 = None ->
   fst (_detect_terminal setraw_attributes ICANON ECHO self t) = Raised IndexError)
  /\ (forall fp, nth_error (Py.split pixels ";") 1 = Some fp ->
                 Py.parse_int fp = None ->
                 fst (_detect_terminal setraw_attributes ICANON ECHO self t)
                 = Raised ValueError)
  /\ (forall fp height_in_pixels cells rest4 fc,
        nth_error (Py.split pixels ";") 1 = Some fp ->
        Py.parse_int fp = Some height_in_pixels ->
        read_response "t" rest3 = (Returned cells, rest4) ->
        nth_error (Py.split cells ";") 1 = Some fc ->
        Py.parse_int fc = Some 0%Z ->
        fst (_detect_terminal setraw_attributes ICANON ECHO self t)
        = Raised ZeroDivisionError).
Proof.
  intros G1 G2 G3 Hb H1 H2 Hlen Hm Hge Hp.
  rewrite (detect_outcome _ _ _ self t G1 G2 G3).
  rewrite (negotiate_outcome _ _ _ t ("ITERM2 " ++ v) r2 rest1 rest2 Hb H1 H2);
    [|rewrite append_cons; discriminate|rewrite append_cons; discriminate].
  rewrite after_first_response_prefix, Hm.
  destruct (Z.leb_spec 2 (Z.of_nat (length (Py.splitn v "." 2)))) as [_|Hl]; [|lia].
  destruct (Z.leb_spec 3 major) as [_|Hl]; [|lia].
  unfold geometry. rewrite Hp. unfold geometry_field, Py.index, Py.int.
  split; [|split].
  - intros ->. reflexivity.
  - intros fp Hfp Hnone. rewrite Hfp. cbn [obind]. rewrite Hnone. reflexivity.
  - intros fp hp cells rest4 fc Hfp Hhp Hc Hfc Hzero.
    rewrite Hfp. cbn [obind]. rewrite Hhp. cbn [obind].
    rewrite Hc, Hfc. cbn [obind]. rewrite Hzero. reflexivity.
Qed.

End GeometryFailures.

Lemma detect_terminal_geometry_failures_witness :
  fst (Darwin.detect (Darwin.mac true false) iterm2_no_rows) = Raised ZeroDivisionError.
Proof.
  refine (proj2 (proj2 (detect_terminal_geometry_failures
                   Darwin.setraw_attributes Darwin.ICANON Darwin.ECHO
                   (Darwin.mac true false) iterm2_no_rows
                   "3.4.19" "0" "4;340;600" 3
                   (Darwin.chars (Darwin.reply "0" "n" ++ Darwin.reply "4;340;600" "t"
                                  ++ Darwin.reply "8;0;0" "t"))
                   (Darwin.chars (Darwin.reply "4;340;600" "t"
                                  ++ Darwin.reply "8;0;0" "t"))
                   (Darwin.chars (Darwin.reply "8;0;0" "t"))
                   eq_refl eq_refl eq_refl eq_refl eq_refl eq_refl
                   _ eq_refl _ eq_refl))
                "340" 340%Z "8;0;0" [] "0" eq_refl eq_refl eq_refl eq_refl eq_refl).
  - vm_compute. lia.
  - lia.
Defined.

(** ** Initialization *)

Lemma returns_only_tbind {A B} (P : B -> Prop) (m : Term A) (f : A -> Term B) :
  (forall a, returns_only P (f a)) -> returns_only P (tbind m f).
Proof.
  intros Hf t b. unfold tbind. destruct (m t) as [[a|e|] t']; cbn [fst].
  - apply Hf.
  - discriminate.
  - discriminate.
Qed.

Lemma returns_only_tret {A} (P : A -> Prop) (a : A) : P a -> returns_only P (tret a).
Proof. intros HP t a' E. injection E as <-. exact HP. Qed.

Section InitializeProperties.
Variable setraw_attributes : attributes -> attributes.
Variables ICANON ECHO : Z.

Lemma negotiate_returns_capability :
  returns_only capability (negotiate setraw_attributes ICANON ECHO 0).
Proof.
  unfold negotiate.
  repeat (apply returns_only_tbind; intros ?).
  destruct (negb _); [|apply returns_only_tret; left; reflexivity].
  apply returns_only_tbind; intros ?.
  destruct (Py.startswith _ _); [|apply returns_only_tret; left; reflexivity].
  apply returns_only_tbind; intros ?.
  destruct (_ <=? _)%Z; [|apply returns_only_tret; left; reflexivity].
  apply returns_only_tbind; intros ?.
  destruct (_ <=? _)%Z; [|apply returns_only_tret; left; reflexivity].
  repeat (apply returns_only_tbind; intros ?).
  apply returns_only_tret. right. eexists. reflexivity.
Qed.

Lemma detect_terminal_returns_capability (self : PSApplication) (t : terminal)
    (r : string * Z) :
  fst (_detect_terminal setraw_attributes ICANON ECHO self t) = Returned r ->
  r = ("simple", 0%Z)
  \/ (exists icon_size, r = ("iterm2", icon_size))
     /\ _have_terminal self = true /\ _plain_terminal self = false
     /\ platform_system self = "Darwin".
Proof.
  unfold _detect_terminal.
  destruct (_have_terminal self), (_plain_terminal self);
    cbn [negb orb]; try (intros E; injection E as <-; left; reflexivity).
  destruct (String.eqb_spec (platform_system self) "Darwin") as [Ed|Nd];
    cbn [negb]; [|intros E; injection E as <-; left; reflexivity].
  pose proof (negotiate_returns_capability t) as Hcap.
  unfold tbind, tcgetattr, try_finally, tcsetattr. cbv beta iota.
  destruct (negotiate setraw_attributes ICANON ECHO 0 t) as [[r'|e|] t'];
    cbn [fst] in *; try discriminate.
  intros E. injection E as <-.
  destruct (Hcap r' eq_refl) as [->|Hit]; [left; reflexivity|].
  right. repeat split; assumption.
Qed.

Lemma detect_terminal_attrs_restored (self : PSApplication) (t : terminal) :
  fst (_detect_terminal setraw_attributes ICANON ECHO self t) <> Blocked ->
  attrs (snd (_detect_terminal setraw_attributes ICANON ECHO self t)) = attrs t.
Proof.
  unfold _detect_terminal.
  destruct (negb (_have_terminal self) || _plain_terminal self
            || negb (String.eqb (platform_system self) "Darwin")); [reflexivity|].
  unfold tbind, tcgetattr, try_finally, tcsetattr. cbv beta iota.
  destruct (negotiate setraw_attributes ICANON ECHO 0 t) as [[r|e|] t'];
    cbn [fst snd attrs]; [reflexivity|reflexivity|congruence].
Qed.

(** X9: [_initialize] refuses [-i] without [-a] before it touches the
    terminal. Otherwise, when it returns, the four flags of [self] are the
    options, the fields set by [ConsoleApplication] are untouched, the
    attributes of the terminal are as before, and the terminal type is either
    ["simple"] with icon size 0 or ["iterm2"]; it is ["iterm2"] only on a Mac
    with a terminal whose image output is not turned off. *)
Theorem initialize_postcondition (self : PSApplication) (options : Options)
    (t : terminal) :
  (include_all_applications options = true ->
   list_only_applications options = false ->
   _initialize setraw_attributes ICANON ECHO self options t
   = (Returned (ParserError "-i cannot be used without -a"), t))
  /\ (forall self' t',
        _initialize setraw_attributes ICANON ECHO self options t
        = (Returned (Ready self'), t') ->
        (include_all_applications options = true ->
         list_only_applications options = true)
        /\ _list_only_applications self' = list_only_applications options
        /\ _include_all_applications self' = include_all_applications options
        /\ _output_format self' = output_format options
        /\ _exclude_icons self' = exclude_icons options
        /\ _device self' = _device self
        /\ attrs t' = attrs t
        /\ (_terminal_type self' = "simple" /\ _icon_size self' = 0%Z
            \/ _terminal_type self' = "iterm2"
               /\ _have_terminal self = true /\ _plain_terminal self = false
               /\ platform_system self = "Darwin")).
Proof.
  split.
  - intros Hi Ha. unfold _initialize. rewrite Hi, Ha. reflexivity.
  - intros self' t'. unfold _initialize.
    destruct (include_all_applications options && negb (list_only_applications options))
      eqn:Hopt; [discriminate|].
    cbv zeta. unfold tbind at 1.
    match goal with
    | |- context [_detect_terminal _ _ _ ?s t] => set (configured := s)
    end.
    pose proof (detect_terminal_returns_capability configured t) as Hcap.
    pose proof (detect_terminal_attrs_restored configured t) as Hattr.
    destruct (_detect_terminal setraw_attributes ICANON ECHO configured t)
      as [[r|e|] t1]; cbn [fst snd] in *; try discriminate.
    intros E. injection E as <- <-.
    cbn [_list_only_applications _include_all_applications _output_format
         _exclude_icons _device _terminal_type _icon_size].
    split.
    { intros Hi. rewrite Hi in Hopt. destruct (list_only_applications options);
        [reflexivity|discriminate Hopt]. }
    repeat (split; [reflexivity|]).
    split; [apply Hattr; discriminate|].
    destruct (Hcap r eq_refl) as [->|[[size ->] Hguard]].
    + left. split; reflexivity.
    + right. split; [reflexivity|exact Hguard].
Qed.

End InitializeProperties.

(** ** The escape sequence of an icon *)

Lemma string_append_assoc (a b c : string) : (a ++ b) ++ c = a ++ (b ++ c).
Proof.
  induction a as [|x a IH]; [reflexivity|].
  rewrite !append_cons, IH. reflexivity.
Qed.

Lemma all_printable_append (a b : string) :
  all_printable (a ++ b) = all_printable a && all_printable b.
Proof.
  induction a as [|c a IH]; [reflexivity|].
  rewrite append_cons. cbn [all_printable]. rewrite IH, andb_assoc. reflexivity.
Qed.

Lemma all_printable_uint (d : Decimal.uint) :
  all_printable (NilEmpty.string_of_uint d) = true.
Proof. induction d; cbn [NilEmpty.string_of_uint all_printable]; auto. Qed.

(** [str(n)] holds digits and a sign only. *)
Lemma all_printable_str_of_int (n : Z) : all_printable (Py.str_of_int n) = true.
Proof.
  unfold Py.str_of_int, NilZero.string_of_int, NilZero.string_of_uint.
  destruct (Z.to_int n) as [d|d]; destruct d; try reflexivity;
    cbn [all_printable]; try apply all_printable_uint;
    rewrite all_printable_uint; reflexivity.
Qed.

Lemma all_printable_get (s : string) (k : nat) (c : ascii) :
  all_printable s = true -> String.get k s = Some c -> printable c = true.
Proof.
  revert k. induction s as [|c' s IH]; intros k Hall Hget; [discriminate Hget|].
  cbn [all_printable] in Hall. apply andb_true_iff in Hall as [Hc Hs].
  destruct k as [|k]; simpl in Hget.
  - injection Hget as <-. exact Hc.
  - exact (IH k Hs Hget).
Qed.

Lemma all_printable_sextet (n : N) : all_printable (Base64.sextet n) = true.
Proof.
  unfold Base64.sextet.
  destruct (String.get (N.to_nat n) Base64.alphabet) as [c|] eqn:Hget; [|reflexivity].
  cbn [all_printable]. rewrite andb_true_r.
  apply (all_printable_get Base64.alphabet (N.to_nat n)); [reflexivity|exact Hget].
Qed.

Lemma all_printable_b64encode (data : list Byte.byte) :
  all_printable (Base64.b64encode data) = true.
Proof.
  assert (H : forall n (l : list Byte.byte), (length l <= n)%nat ->
                all_printable (Base64.b64encode l) = true).
  { induction n as [|n IH]; intros l Hl.
    - destruct l; [reflexivity|simpl in Hl; lia].
    - destruct l as [|a [|b [|c rest]]]; cbn [Base64.b64encode];
        rewrite ?all_printable_append, ?all_printable_sextet; try reflexivity.
      rewrite IH; [reflexivity|]. simpl in Hl. lia. }
  exact (H (length data) data (le_n _)).
Qed.

(** X10: the escape sequence of an icon begins with the one [ESC] and ends
    with the one [BEL] it holds: between them every character is a printing
    ASCII character, whatever the bytes of the image and the icon size are, so
    the image cannot end the sequence early or bring a control character to
    the terminal. *)
Theorem render_icon_is_one_sequence : forall (self : PSApplication)
    (icon : IconDescriptor),
  exists body,
    _render_icon self icon = String ESC (body ++ String BEL EmptyString)
    /\ all_printable body = true
    /\ printable ESC = false /\ printable BEL = false.
Proof.
  intros self icon.
  exists ("]1337;File=inline=1;width=" ++ Py.str_of_int (_icon_size self)
          ++ "px;height=" ++ Py.str_of_int (_icon_size self)
          ++ "px;:" ++ Base64.b64encode (image icon)).
  split; [|split; [|split; reflexivity]].
  - unfold _render_icon. rewrite append_cons, !string_append_assoc. reflexivity.
  - rewrite !all_printable_append, !all_printable_str_of_int,
      all_printable_b64encode. reflexivity.
Qed.

(** ** When a listing fails *)

Lemma print_rows_stops {A} (row : A -> outcome string) (items : list A)
    (evs : list event) (r : outcome unit) :
  print_rows row items = (evs, r) ->
  Forall is_print evs
  /\ (r = Returned tt \/ exists item, In item items /\ row item = obind r (fun _ => Blocked)).
Proof.
  revert evs r. induction items as [|item rest IH]; intros evs r.
  - cbn [print_rows ret]. intros E. injection E as <- <-.
    split; [constructor|left; reflexivity].
  - cbn [print_rows]. destruct (row item) as [line|e|] eqn:Hrow.
    + destruct (print_rows row rest) as [evs' r'] eqn:Hrest.
      destruct (IH evs' r' eq_refl) as [Hp Hr].
      unfold bind, lift, emit. cbn. intros E. injection E as <- <-.
      split; [constructor; [exact I|exact Hp]|].
      destruct Hr as [->|(item' & Hin & Hrow')]; [left; reflexivity|].
      right. exists item'. split; [right; exact Hin|exact Hrow'].
    + unfold bind, lift. cbn. intros E. injection E as <- <-.
      split; [constructor|]. right. exists item. split; [left; reflexivity|exact Hrow].
    + unfold bind, lift. cbn. intros E. injection E as <- <-.
      split; [constructor|]. right. exists item. split; [left; reflexivity|exact Hrow].
Qed.

Lemma name_cell_fails `{Item A} (self : PSApplication) (icon_width name_width : Z)
    (item : A) (r : outcome string) :
  name_cell self icon_width name_width item = r ->
  (exists cell, r = Returned cell)
  \/ (r = Raised IndexError /\ icon_width <> 0%Z
      /\ item_parameters item !! "icons" = Some []).
Proof.
  unfold name_cell. intros <-.
  destruct (Z.eqb_spec icon_width 0) as [E|N]; cbn [negb].
  - left. eexists. reflexivity.
  - destruct (item_parameters item !! "icons") as [[|icon rest]|] eqn:Hicons.
    + right. repeat split; [exact N].
    + left. eexists. reflexivity.
    + left. eexists. reflexivity.
Qed.

Lemma icon_width_nonzero `{Item A} (records : list A) :
  icon_width_of records <> 0%Z -> icon_width_of records = 4%Z.
Proof. destruct (icon_width_of_spec records) as [[E|E] _]; [contradiction|auto]. Qed.

Lemma list_processes_fails (self : PSApplication) (evs : list event)
    (r : outcome unit) :
  _list_processes self = (evs, r) ->
  r <> Blocked
  /\ forall e, r = Raised e ->
       e = IndexError /\ Forall is_print evs /\ _output_format self = "text"
       /\ exists processes p,
            call_backend self (fun d => enumerate_processes d (process_scope self))
            = Listed processes
            /\ In p processes /\ parameters p !! "icons" = Some []
            /\ icon_width_of processes = 4%Z.
Proof.
  unfold _list_processes. cbv zeta.
  destruct (call_backend self _) as [processes|msg] eqn:Hcall;
    [|intros E; injection E as <- <-; split; [discriminate|intros e E; discriminate E]].
  destruct (String.eqb_spec (_output_format self) "text") as [Hf|_].
  - destruct (0 <? Z.of_nat (length processes))%Z;
      [|intros E; injection E as <- <-; split; [discriminate|intros e E; discriminate E]].
    match goal with
    | |- context [print_rows ?row ?items] =>
        destruct (print_rows row items) as [evs' r'] eqn:Hrows;
        destruct (print_rows_stops row items evs' r' Hrows) as [Hp Hr]
    end.
    unfold bind, emit. cbn.
    destruct Hr as [->|(p & Hin & Hrow)].
    + intros E. injection E as <- <-. split; [discriminate|intros e E; discriminate E].
    + unfold process_row in Hrow.
      match type of Hrow with
      | context [name_cell ?s ?w ?n ?i] =>
          destruct (name_cell_fails s w n i _ eq_refl) as [[cell Hc]|(Hc & Hw & Hi)];
          rewrite Hc in Hrow
      end.
      * destruct r' as [[]|e|]; discriminate Hrow.
      * destruct r' as [[]|e|]; cbn [obind] in Hrow; try discriminate Hrow.
        injection Hrow as <-.
        intros E. injection E as <- <-. split; [discriminate|].
        intros e E. injection E as <-.
        split; [reflexivity|]. split; [repeat constructor; exact Hp|].
        split; [exact Hf|]. exists processes, p. split; [reflexivity|].
        split; [|split; [exact Hi|apply icon_width_nonzero, Hw]].
        eapply Permutation_in; [apply sorted_perm|exact Hin].
  - destruct (String.eqb (_output_format self) "json");
      intros E; injection E as <- <-; (split; [discriminate|intros e E; discriminate E]).
Qed.

Lemma list_applications_fails (self : PSApplication) (evs : list event)
    (r : outcome unit) :
  _list_applications self = (evs, r) ->
  r <> Blocked
  /\ forall e, r = Raised e ->
       e = IndexError /\ Forall is_print evs /\ _output_format self = "text"
       /\ exists applications app,
            call_backend self
              (fun d => enumerate_applications d (application_scope self))
            = Listed applications
            /\ In app (listed_applications self applications)
            /\ app_parameters app !! "icons" = Some []
            /\ icon_width_of (listed_applications self applications) = 4%Z.
Proof.
  unfold _list_applications. cbv zeta.
  destruct (call_backend self _) as [applications|msg] eqn:Hcall;
    [|intros E; injection E as <- <-; split; [discriminate|intros e E; discriminate E]].
  destruct (String.eqb_spec (_output_format self) "text") as [Hf|_].
  - destruct (0 <? Z.of_nat (length (listed_applications self applications)))%Z.
    + match goal with
      | |- context [print_rows ?row ?items] =>
          destruct (print_rows row items) as [evs' r'] eqn:Hrows;
          destruct (print_rows_stops row items evs' r' Hrows) as [Hp Hr]
      end.
      unfold bind, emit. cbn.
      destruct Hr as [->|(app & Hin & Hrow)].
      * intros E. injection E as <- <-.
        split; [discriminate|intros e E; discriminate E].
      * unfold application_row in Hrow.
        match type of Hrow with
        | context [name_cell ?s ?w ?n ?i] =>
            destruct (name_cell_fails s w n i _ eq_refl) as [[cell Hc]|(Hc & Hw & Hi)];
            rewrite Hc in Hrow
        end.
        -- destruct r' as [[]|e|]; discriminate Hrow.
        -- destruct r' as [[]|e|]; cbn [obind] in Hrow; try discriminate Hrow.
           injection Hrow as <-.
           intros E. injection E as <- <-. split; [discriminate|].
           intros e E. injection E as <-.
           split; [reflexivity|]. split; [repeat constructor; exact Hp|].
           split; [exact Hf|]. exists applications, app. split; [reflexivity|].
           split; [|split; [exact Hi|apply icon_width_nonzero, Hw]].
           eapply Permutation_in; [apply sorted_perm|exact Hin].
    + destruct (_include_all_applications self);
        intros E; injection E as <- <-;
        (split; [discriminate|intros e E; discriminate E]).
  - destruct (String.eqb (_output_format self) "json");
      intros E; injection E as <- <-; (split; [discriminate|intros e E; discriminate E]).
Qed.

(** X11: once the backend has answered, a listing always comes to an end,
    and it can fail in one way only: with [IndexError], in text mode, when the
    icon width is 4 and some listed record has an empty ["icons"] entry. What
    it has printed by then are lines of the table; [_exit] has not been
    called. *)
Theorem listing_fails_only_on_empty_icons : forall (self : PSApplication)
    (evs : list event) (r : outcome unit),
  _start self = (evs, r) ->
  r <> Blocked
  /\ forall e, r = Raised e ->
       e = IndexError /\ Forall is_print evs /\ _output_format self = "text"
       /\ ((exists processes p,
              _list_only_applications self = false
              /\ call_backend self (fun d => enumerate_processes d (process_scope self))
                 = Listed processes
              /\ In p processes /\ parameters p !! "icons" = Some []
              /\ icon_width_of processes = 4%Z)
           \/ (exists applications app,
                 _list_only_applications self = true
                 /\ call_backend self
                      (fun d => enumerate_applications d (application_scope self))
                    = Listed applications
                 /\ In app (listed_applications self applications)
                 /\ app_parameters app !! "icons" = Some []
                 /\ icon_width_of (listed_applications self applications) = 4%Z)).
Proof.
  intros self evs r. unfold _start.
  destruct (_list_only_applications self) eqn:Hmode; intros Hrun.
  - destruct (list_applications_fails self evs r Hrun) as [Hb Hfail].
    split; [exact Hb|]. intros e He.
    destruct (Hfail e He) as (H1 & H2 & H3 & apps & app & H4 & H5 & H6 & H7).
    repeat (split; [assumption|]). right. exists apps, app. repeat split; assumption.
  - destruct (list_processes_fails self evs r Hrun) as [Hb Hfail].
    split; [exact Hb|]. intros e He.
    destruct (Hfail e He) as (H1 & H2 & H3 & ps & p & H4 & H5 & H6 & H7).
    repeat (split; [assumption|]). left. exists ps, p. repeat split; assumption.
Qed.

Lemma listing_fails_only_on_empty_icons_witness :
  snd (_start ps_empty_icons) = Raised IndexError
  /\ Forall is_print (fst (_start ps_empty_icons))
  /\ length (fst (_start ps_empty_icons)) = 3%nat.
Proof.
  split; [vm_compute; reflexivity|]. split; [|vm_compute; reflexivity].
  destruct (listing_fails_only_on_empty_icons ps_empty_icons
              (fst (_start ps_empty_icons)) (snd (_start ps_empty_icons))
              (surjective_pairing _)) as [_ Hfail].
  destruct (Hfail IndexError) as (_ & Hprints & _); [vm_compute; reflexivity|].
  exact Hprints.
Defined.

(** ** The pre-scan of the icons *)

(** X12: the width the pre-scan gives to the icon column is 0 or 4, one
    value for the whole listing; it is 4 exactly when some record has an
    ["icons"] entry that holds a descriptor of format ["png"], at any position
    of the entry. Records without the entry, with an empty entry or with
    descriptors of other formats only count for nothing. *)
Theorem icon_prescan_width : forall records : list Process,
  (icon_width_of records = 0%Z \/ icon_width_of records = 4%Z)
  /\ (icon_width_of records = 4%Z <->
      exists p icons, In p records /\ parameters p !! "icons" = Some icons
                      /\ exists icon, In icon icons /\ format icon = "png").
Proof.
  intros records. destruct (icon_width_of_spec records) as [Hv Hiff].
  split; [exact Hv|]. rewrite Hiff, List.Exists_exists. split.
  - intros (p & Hin & icons & Hp & Hex).
    apply List.Exists_exists in Hex as (icon & Hi & Hf).
    exists p, icons. repeat split; try assumption. exists icon. split; assumption.
  - intros (p & icons & Hin & Hp & icon & Hi & Hf).
    exists p. split; [exact Hin|]. exists icons. split; [exact Hp|].
    apply List.Exists_exists. exists icon. split; assumption.
Qed.

(** X13: [_list_processes] honours [--exclude-icons]. For a backend that
    leaves the icons out of a ["minimal"] enumeration, the icon column of the
    process listing has width 4 exactly when the flag is not set, the output
    is text, the terminal is iTerm2 and some record carries a [png]
    descriptor. *)
Theorem list_processes_honours_exclude_icons (self : PSApplication)
    (device : Device) (processes : list Process) :
  (forall records, enumerate_processes device "minimal" = Listed records ->
                   Forall (fun p => parameters p !! "icons" = None) records) ->
  enumerate_processes device (process_scope self) = Listed processes ->
  icon_width_of processes = 4%Z <->
  _exclude_icons self = false /\ _output_format self = "text"
  /\ _terminal_type self = "iterm2" /\ Exists carries_png processes.
Proof. apply process_listing_icon_width. Qed.

Lemma list_processes_honours_exclude_icons_witness :
  icon_width_of [safari_process "full"] = 4%Z
  /\ icon_width_of [safari_process "minimal"] <> 4%Z.
Proof.
  assert (Hminimal : forall records,
             enumerate_processes safari_device "minimal" = Listed records ->
             Forall (fun p => parameters p !! "icons" = None) records).
  { intros records E. injection E as <-. repeat constructor. }
  split.
  - apply (proj2 (list_processes_honours_exclude_icons ps_processes_with_icons
                    safari_device [safari_process "full"] Hminimal eq_refl)).
    repeat split. constructor. exists [png_icon]. split; [reflexivity|].
    constructor. reflexivity.
  - intros H4.
    apply (proj1 (list_processes_honours_exclude_icons ps_processes_exclude_icons
                    safari_device [safari_process "minimal"] Hminimal eq_refl)) in H4.
    destruct H4 as [Hflag _]. discriminate Hflag.
Defined.

(** ** An empty icon list breaks the table *)

Lemma print_rows_raises {A} (row : A -> outcome string) (items : list A) (e : exn) :
  (forall item, In item items ->
                (exists line, row item = Returned line) \/ row item = Raised e) ->
  (exists item, In item items /\ row item = Raised e) ->
  snd (print_rows row items) = Raised e.
Proof.
  induction items as [|item rest IH]; intros Hall (bad & Hin & Hbad); [destruct Hin|].
  cbn [print_rows].
  destruct (Hall item (or_introl eq_refl)) as [[line Hrow]|Hrow]; rewrite Hrow.
  - destruct Hin as [->|Hin]; [congruence|].
    assert (Hrest : snd (print_rows row rest) = Raised e).
    { apply IH; [intros i Hi; apply Hall; right; exact Hi|].
      exists bad. split; assumption. }
    unfold bind, lift, emit. cbn.
    destruct (print_rows row rest) as [evs r]. cbn in *. rewrite Hrest. reflexivity.
  - reflexivity.
Qed.

(** X14: in the text listing of processes, when the icon column has width 4
    and the ["icons"] entry of some record is empty, the listing raises
    [IndexError]: it prints the header and the rows that come before the
    record, and never calls [_exit]. *)
Theorem list_processes_empty_icons_raises (self : PSApplication)
    (processes : list Process) (p : Process) :
  _output_format self = "text" ->
  call_backend self (fun d => enumerate_processes d (process_scope self))
  = Listed processes ->
  icon_width_of processes = 4%Z ->
  In p processes -> parameters p !! "icons" = Some [] ->
  snd (_list_processes self) = Raised IndexError
  /\ Forall is_print (fst (_list_processes self)).
Proof.
  intros Hf Hcall Hw Hin Hp.
  assert (Hsnd : snd (_list_processes self) = Raised IndexError).
  { unfold _list_processes. cbv zeta. rewrite Hcall, Hf.
    change (String.eqb "text" "text") with true. cbv iota.
    replace (0 <? Z.of_nat (length processes))%Z with true
      by (destruct processes; [destruct Hin|reflexivity]).
    rewrite Hw.
    match goal with
    | |- context [print_rows ?row ?items] =>
        assert (Hrows : snd (print_rows row items) = Raised IndexError)
    end.
    { apply print_rows_raises.
      - intros q _. unfold process_row.
        match goal with
        | |- context [name_cell ?s ?w ?n ?i] =>
            destruct (name_cell_fails s w n i _ eq_refl) as [[cell Hc]|(Hc & _)];
            rewrite Hc
        end; [left; eexists; reflexivity|right; reflexivity].
      - exists p. split.
        + eapply Permutation_in; [apply Permutation_sym, sorted_perm|exact Hin].
        + unfold process_row, name_cell. cbn. rewrite Hp. reflexivity. }
    unfold bind, emit. cbn.
    match goal with
    | |- context [print_rows ?row ?items] =>
        destruct (print_rows row items) as [evs r]
    end.
    cbn in *. rewrite Hrows. reflexivity. }
  split; [exact Hsnd|].
  destruct (list_processes_fails self (fst (_list_processes self))
              (snd (_list_processes self)) (surjective_pairing _)) as [_ Hfail].
  destruct (Hfail IndexError Hsnd) as (_ & Hprints & _). exact Hprints.
Qed.

Lemma list_processes_empty_icons_raises_witness :
  snd (_list_processes ps_empty_icons) = Raised IndexError
  /\ Forall is_print (fst (_list_processes ps_empty_icons)).
Proof.
  apply (list_processes_empty_icons_raises ps_empty_icons
           [process_with_empty_icons; process_with_rgba_icon]
           process_with_empty_icons eq_refl eq_refl eq_refl).
  - left. reflexivity.
  - reflexivity.
Defined.

(** ** A terminal that is not iTerm2 *)

Section OtherTerminal.
Variable setraw_attributes : attributes -> attributes.
Variables ICANON ECHO : Z.

(** X15: when the first response is ["0"] or ["3"] the negotiation is over
    after one response. It returns [("simple", 0)]; the terminal has its
    attributes back, has received the two capability probes and their flush
    and nothing more, and the input that follows the first response is left
    unread. *)
Theorem detect_terminal_other_terminal (self : PSApplication) (t : terminal)
    (r1 : string) (rest1 : list input_event) :
  _have_terminal self = true -> _plain_terminal self = false ->
  platform_system self = "Darwin" ->
  out_budget t = None ->
  read_response "n" (input t) = (Returned r1, rest1) ->
  r1 = "0" \/ r1 = "3" ->
  _detect_terminal setraw_attributes ICANON ECHO self t
  = (Returned ("simple", 0%Z),
     {| attrs := attrs t; input := rest1;
        output := (output t ++ firstn 3 probes)%list; out_budget := None |}).
Proof.
  intros G1 G2 G3 Hb H1 Hr. unfold _detect_terminal. rewrite G1, G2, G3.
  change (String.eqb "Darwin" "Darwin") with true. cbn [negb orb].
  destruct t as [a i o b]. cbn [out_budget input] in Hb, H1. subst b.
  assert (Hneg : negotiate setraw_attributes ICANON ECHO 0
                   {| attrs := a; input := i; output := o; out_budget := None |}
                 = (Returned ("simple", 0%Z),
                    {| attrs := clear_icanon_echo ICANON ECHO (setraw_attributes a);
                       input := rest1;
                       output := (o ++ firstn 3 probes)%list;
                       out_budget := None |})).
  { unfold negotiate, tty_setraw.
    unfold tbind at 1. unfold tbind at 1. simpl.
    unfold tbind at 1. simpl. unfold tbind at 1. simpl.
    unfold tbind at 1. simpl. unfold tbind at 1. simpl.
    unfold tbind at 1. simpl.
    unfold tbind at 1. rewrite read_terminal_response_run. simpl.
    rewrite H1. simpl.
    replace (String.eqb r1 "0" || String.eqb r1 "3") with true
      by (destruct Hr as [-> | ->]; reflexivity).
    cbn [negb]. unfold tret, with_input. cbn.
    rewrite <- !app_assoc. reflexivity. }
  unfold tbind, tcgetattr, try_finally, tcsetattr. cbv beta iota zeta.
  rewrite Hneg. reflexivity.
Qed.

End OtherTerminal.

Lemma detect_terminal_other_terminal_witness :
  Darwin.detect (Darwin.mac true false)
    (Darwin.answering (Darwin.reply "0" "n" ++ "left unread"))
  = (Returned ("simple", 0%Z),
     {| attrs := Darwin.cooked; input := Darwin.chars "left unread";
        output := firstn 3 probes; out_budget := None |}).
Proof.
  apply (detect_terminal_other_terminal
           Darwin.setraw_attributes Darwin.ICANON Darwin.ECHO
           (Darwin.mac true false)
           (Darwin.answering (Darwin.reply "0" "n" ++ "left unread"))
           "0" (Darwin.chars "left unread")
           eq_refl eq_refl eq_refl eq_refl eq_refl).
  left. reflexivity.
Defined.
